(** * Cell areas of a latitude/longitude grid repeated over depth

    A shallow embedding of [scripts/misc.py] (function [compute_3d_area])
    and the properties its specification states about it.

    The Python code is a straight line of NumPy and xarray calls.  The
    embedding keeps that shape: one definition per assignment of the source,
    with the same name wherever possible ([R] of the source is [R_earth]
    here, because [R] is the type of real numbers).

    Floating-point arithmetic is kept abstract: the model is written over a
    type [F] of numbers with the operations the code uses ([FloatOps]).
    There is one such type, for the scalars of the source and for the
    elements of the arrays alike: the arrays are arrays of Python floats
    (float64), so that no operation changes the precision.
    Statements that only depend on which operations are applied, in which
    order, hold for every such arithmetic, IEEE doubles included.  Statements
    that need trigonometry (signs, telescoping sums) are proved for the
    instance of real numbers. *)

From Stdlib Require Import String ZArith Bool Arith Lia List.
From Stdlib Require Import Reals Lra.
Import ListNotations.

Set Implicit Arguments.

(** ** Python exceptions and results *)

Inductive pyexc : Type :=
| TypeError
| IndexError
| AttributeError
| ValueError
| KeyError
| SystemError.

Inductive result (A : Type) : Type :=
| Ok (a : A)
| Raise (e : pyexc).

Arguments Ok {A} a.
Arguments Raise {A} e.

Definition bind {A B : Type} (r : result A) (k : A -> result B) : result B :=
  match r with
  | Ok a => k a
  | Raise e => Raise e
  end.

Notation "x <- r ;; k" := (bind r (fun x => k))
  (at level 61, r at next level, right associativity).

(** ** Arithmetic *)

(** The operations on numbers that the source applies.  [of_int] is the
    promotion of a Python [int] in mixed arithmetic; [quarter] is the literal
    [0.25]; [np_pi] is [np.pi]; [np_sin] is [np.sin] on one element. *)
Class FloatOps (F : Type) : Type := {
  of_int : Z -> F;
  quarter : F;
  np_pi : F;
  fadd : F -> F -> F;
  fsub : F -> F -> F;
  fmul : F -> F -> F;
  fdiv : F -> F -> F;
  np_sin : F -> F
}.

(** String-keyed metadata ([attrs] dictionaries), in insertion order. *)
Definition attrs : Type := list (string * string).

Fixpoint dict_get {V : Type} (d : list (string * V)) (k : string) : option V :=
  match d with
  | [] => None
  | (k', v) :: rest => if String.eqb k k' then Some v else dict_get rest k
  end.

(** [d[k] = v]: an existing key keeps its position, a new key goes last. *)
Fixpoint dict_set {V : Type} (d : list (string * V)) (k : string) (v : V)
  : list (string * V) :=
  match d with
  | [] => [(k, v)]
  | (k', v') :: rest =>
      if String.eqb k k' then (k', v) :: rest else (k', v') :: dict_set rest k v
  end.

(** [d.update(u)] *)
Definition dict_update {V : Type} (d u : list (string * V)) : list (string * V) :=
  fold_left (fun acc kv => dict_set acc (fst kv) (snd kv)) u d.

Section Model.

Context {F : Type} {ops : FloatOps F}.

(** ** The arguments

    The three arguments are duck-typed.  The kinds of sequence the model
    distinguishes are those on which the operations of the source behave
    differently.  A labelled array brings the name of its one dimension
    along, and xarray accepts it as the coordinate of a dimension of that
    name only. *)
Inductive pyseq : Type :=
| PyList (xs : list F)   (* a plain Python list of floats *)
| NdArray (xs : list F)  (* a one-dimensional numpy.ndarray *)
| XrArray (xs : list F) (dim : string) (meta : attrs)
                         (* a one-dimensional xarray.DataArray *).

Definition elems (s : pyseq) : list F :=
  match s with
  | PyList xs => xs
  | NdArray xs => xs
  | XrArray xs _ _ => xs
  end.

(** [len(s)] *)
Definition len (s : pyseq) : nat := length (elems s).

(** The labels a sequence brings along when used as a coordinate. *)
Definition meta_of (s : pyseq) : attrs :=
  match s with
  | XrArray _ _ m => m
  | _ => []
  end.

(** Whether a sequence can label the dimension [d]: a list or a NumPy array
    always can, a labelled array only when [d] is its own dimension. *)
Definition named (d : string) (s : pyseq) : bool :=
  match s with
  | XrArray _ d' _ => String.eqb d' d
  | _ => true
  end.

(** The dimension a sequence runs along when it labels the dimension [d]. *)
Definition dim_of (d : string) (s : pyseq) : string :=
  match s with
  | XrArray _ d' _ => d'
  | _ => d
  end.

(** ** Arrays of two and three dimensions

    Nested lists in row-major order, with the shape kept beside them (a
    nested list alone forgets the inner extents when an outer one is 0). *)
Definition array2 : Type := list (list F).
Definition array3 : Type := list (list (list F)).

Record ndarray (D : Type) : Type := {
  shape : list nat;
  data : D
}.

(** [a[i, j, k]]; the default is only met out of range. *)
Definition get3 (a : array3) (i j k : nat) : F :=
  nth k (nth j (nth i a []) []) (of_int 0).

(** The array of shape [(n0, n1, n2)] whose element at [(i, j, k)] is
    [f i j k]. *)
Definition build3 (n0 n1 n2 : nat) (f : nat -> nat -> nat -> F) : array3 :=
  map (fun i => map (fun j => map (fun k => f i j k) (seq 0 n2)) (seq 0 n1))
      (seq 0 n0).

(** ** NumPy operations used by the source *)

(** [s - c] with [c] a float: elementwise on arrays, [TypeError] on a list. *)
Definition arr_sub_scalar (s : pyseq) (c : F) : result (list F) :=
  match s with
  | PyList _ => Raise TypeError
  | NdArray xs => Ok (map (fun x => fsub x c) xs)
  | XrArray xs _ _ => Ok (map (fun x => fsub x c) xs)
  end.

(** [s[-1]]: the last element, [IndexError] when there is none. *)
Definition item_last (s : pyseq) : result F :=
  match rev (elems s) with
  | [] => Raise IndexError
  | x :: _ => Ok x
  end.

(** [np.append(a, v)] with a scalar [v]. *)
Definition np_append (a : list F) (v : F) : list F := a ++ [v].

(** [a[1:]] and [a[:-1]] *)
Definition slice_from_1 (a : list F) : list F := tl a.
Definition slice_to_last (a : list F) : list F := removelast a.

(** [a * c] and [c * a] with a scalar [c]. *)
Definition arr_mul_scalar (a : list F) (c : F) : list F :=
  map (fun x => fmul x c) a.
Definition scalar_mul_arr (c : F) (a : list F) : list F :=
  map (fun x => fmul c x) a.

(** [np.sin(a)] *)
Definition np_sin_arr (a : list F) : list F := map np_sin a.

(** [a - b] on two arrays of one shape. *)
Definition arr_sub (a b : list F) : list F :=
  map (fun p => fsub (fst p) (snd p)) (combine a b).

(** [np.tile(a[:, np.newaxis], (1, n))]: every element becomes a row of [n]
    copies of itself; the result has shape [(len(a), n)]. *)
Definition np_tile_columns (a : list F) (n : nat) : ndarray array2 :=
  {| shape := [length a; n]; data := map (fun x => repeat x n) a |}.

(** ** Constants *)

Definition R_earth : Z := 6371000.
Definition deg_to_rad : F := fdiv np_pi (of_int 180).
Definition delta_lambda : F := fmul quarter deg_to_rad.

(** ** Latitude bounds and the area of a row *)

(** [np.append(lat - 0.25, lat[-1] + 0.25)]; the first argument is evaluated
    first. *)
Definition lat_edges (lat : pyseq) : result (list F) :=
  south <- arr_sub_scalar lat quarter ;;
  top <- item_last lat ;;
  Ok (np_append south (fadd top quarter)).

Definition lat_north (edges : list F) : list F := slice_from_1 edges.
Definition lat_south (edges : list F) : list F := slice_to_last edges.
Definition lat_north_rad (edges : list F) : list F :=
  arr_mul_scalar (lat_north edges) deg_to_rad.
Definition lat_south_rad (edges : list F) : list F :=
  arr_mul_scalar (lat_south edges) deg_to_rad.

(** [R**2 * delta_lambda * (np.sin(lat_north_rad) - np.sin(lat_south_rad))]:
    [R**2] is an exact integer, the product associates to the left. *)
Definition area_rows (edges : list F) : list F :=
  scalar_mul_arr (fmul (of_int (R_earth ^ 2)) delta_lambda)
    (arr_sub (np_sin_arr (lat_north_rad edges)) (np_sin_arr (lat_south_rad edges))).

(** ** Labelled arrays (xarray) *)

(** A coordinate: the dimension it runs along, its labels and its metadata. *)
Record Coord : Type := {
  coord_dim : string;
  coord_values : list F;
  coord_attrs : attrs
}.

(** An [xarray.DataArray] whose values have type [D]. *)
Record DataArray (D : Type) : Type := {
  da_name : option string;
  da_dims : list string;
  da_values : ndarray D;
  da_coords : list (string * Coord);
  da_attrs : attrs
}.

(** [da.shape] *)
Definition da_shape {D : Type} (a : DataArray D) : list nat :=
  shape (da_values a).

(** The coordinate a sequence gives when passed under the name [d]. *)
Definition as_coord (d : string) (s : pyseq) : Coord :=
  {| coord_dim := dim_of d s; coord_values := elems s;
     coord_attrs := meta_of s |}.

(** [a.expand_dims(d=s)]: a new leading dimension [d] of length [len(s)],
    labelled by [s]; the values are repeated along it.  Name and [attrs]
    are kept.  [KeyError] when [s] is a labelled array along another
    dimension than [d]. *)
Definition expand_dims (d : string) (s : pyseq) (a : DataArray array2)
  : result (DataArray array3) :=
  if named d s then
    Ok {| da_name := da_name a;
          da_dims := d :: da_dims a;
          da_values := {| shape := len s :: da_shape a;
                          data := repeat (data (da_values a)) (len s) |};
          da_coords := dict_set (da_coords a) d
                         {| coord_dim := dim_of d s; coord_values := elems s;
                            coord_attrs := [] |};
          da_attrs := da_attrs a |}
  else Raise KeyError.

(** [dims.index(d)] *)
Fixpoint index_of (d : string) (dims : list string) : option nat :=
  match dims with
  | [] => None
  | d' :: rest =>
      if String.eqb d d' then Some 0%nat
      else match index_of d rest with
           | Some n => Some (S n)
           | None => None
           end
  end.

(** Whether [(a0, a1, a2)] is a permutation of [(0, 1, 2)]. *)
Definition is_perm3 (a0 a1 a2 : nat) : bool :=
  (a0 <? 3) && (a1 <? 3) && (a2 <? 3)
  && negb (a0 =? a1) && negb (a0 =? a2) && negb (a1 =? a2).

(** The component of the old index at axis [m], when the new index
    [(i, j, k)] runs along the old axes [(a0, a1, a2)]. *)
Definition old_index (a0 a1 a2 i j k m : nat) : nat :=
  if m =? a0 then i else if m =? a1 then j else k.

(** [a.transpose(...)] with the names [order], on three dimensions:
    [ValueError] unless [order]
    is a permutation of [a.dims]. *)
Definition transpose (a : DataArray array3) (order : list string)
  : result (DataArray array3) :=
  match map (fun d => index_of d (da_dims a)) order with
  | [Some a0; Some a1; Some a2] =>
      if is_perm3 a0 a1 a2 && (length (da_dims a) =? 3) then
        let sh := da_shape a in
        let old := data (da_values a) in
        Ok {| da_name := da_name a;
              da_dims := order;
              da_values :=
                {| shape := [nth a0 sh 0; nth a1 sh 0; nth a2 sh 0]%nat;
                   data := build3 (nth a0 sh 0%nat) (nth a1 sh 0%nat) (nth a2 sh 0%nat)
                             (fun i j k =>
                                get3 old (old_index a0 a1 a2 i j k 0)
                                         (old_index a0 a1 a2 i j k 1)
                                         (old_index a0 a1 a2 i j k 2)) |};
              da_coords := da_coords a;
              da_attrs := da_attrs a |}
      else Raise ValueError
  | _ => Raise ValueError
  end.

(** [s.data]: a list has no such attribute; an [ndarray] answers with a
    buffer over its elements, which xarray reads back as the same numbers; a
    [DataArray] answers with its underlying array. *)
Definition get_data (s : pyseq) : result (list F) :=
  match s with
  | PyList _ => Raise AttributeError
  | NdArray xs => Ok xs
  | XrArray xs _ _ => Ok xs
  end.

(** [a.assign_coords(d=(d, values, meta))] *)
Definition assign_coords {D : Type} (a : DataArray D) (d : string)
    (values : list F) (meta : attrs) : DataArray D :=
  {| da_name := da_name a;
     da_dims := da_dims a;
     da_values := da_values a;
     da_coords := dict_set (da_coords a) d
                    {| coord_dim := d; coord_values := values; coord_attrs := meta |};
     da_attrs := da_attrs a |}.

(** [a.name = n] *)
Definition set_name {D : Type} (a : DataArray D) (n : string) : DataArray D :=
  {| da_name := Some n;
     da_dims := da_dims a;
     da_values := da_values a;
     da_coords := da_coords a;
     da_attrs := da_attrs a |}.

(** [a.attrs.update(u)] *)
Definition attrs_update {D : Type} (a : DataArray D) (u : attrs) : DataArray D :=
  {| da_name := da_name a;
     da_dims := da_dims a;
     da_values := da_values a;
     da_coords := da_coords a;
     da_attrs := dict_update (da_attrs a) u |}.

(** ** The function *)

(** The two-dimensional field of the source: [area_2d] tiled across
    longitude and wrapped as [area_2d_da]. *)
Definition area_2d (lat lon : pyseq) : result (ndarray array2) :=
  edges <- lat_edges lat ;;
  Ok (np_tile_columns (area_rows edges) (len lon)).

(** [xr.DataArray(area_2d, coords={"lat": lat, "lon": lon},
    dims=["lat", "lon"], ...)]: [ValueError] when [lat] or [lon] is a
    labelled array along another dimension than the one it is to label. *)
Definition area_2d_da (lat lon : pyseq) : result (DataArray array2) :=
  a <- area_2d lat lon ;;
  if named "lat" lat && named "lon" lon then
    Ok {| da_name := Some "cell_area"%string;
          da_dims := ["lat"; "lon"]%string;
          da_values := a;
          da_coords := [("lat", as_coord "lat" lat);
                        ("lon", as_coord "lon" lon)]%string;
          da_attrs := [("units", "m^2");
                       ("description",
                        "Area of each 1x1 degree grid cell")]%string |}
  else Raise ValueError.

(** ** The heap

    Python passes references.  The arguments are addresses of objects in a
    heap; the array the function returns is a new object, which the last two
    statements of the source then modify in place.  The arrays in between
    are never written to after they are made, and are kept as values. *)
Inductive pyobj : Type :=
| OSeq (s : pyseq)
| ODataArray (a : DataArray array3).

Definition heap : Type := list pyobj.
Definition addr : Type := nat.

(** Computations that read and write the heap and may raise. *)
Definition M (A : Type) : Type := heap -> result A * heap.

Definition ret {A : Type} (a : A) : M A := fun h => (Ok a, h).

Definition bindM {A B : Type} (m : M A) (k : A -> M B) : M B :=
  fun h =>
    match m h with
    | (Ok a, h') => k a h'
    | (Raise e, h') => (Raise e, h')
    end.

Notation "x <~ m ;; k" := (bindM m (fun x => k))
  (at level 61, m at next level, right associativity).

(** A step that does not touch the heap. *)
Definition lift {A : Type} (r : result A) : M A := fun h => (r, h).

(** A new object, at the next free address. *)
Definition alloc (o : pyobj) : M addr :=
  fun h => (Ok (length h), h ++ [o]).

Fixpoint list_set {A : Type} (l : list A) (n : nat) (x : A) : list A :=
  match l, n with
  | [], _ => []
  | _ :: t, O => x :: t
  | y :: t, S n' => y :: list_set t n' x
  end.

(** Reading a sequence argument.  [SystemError] stands for what Python
    cannot produce: a dangling reference, or one to an object of another
    kind than the model covers. *)
Definition load_seq (a : addr) : M pyseq :=
  fun h =>
    match nth_error h a with
    | Some (OSeq s) => (Ok s, h)
    | _ => (Raise SystemError, h)
    end.

(** [obj.field = ...] on the labelled array at address [a]. *)
Definition modify (a : addr) (f : DataArray array3 -> DataArray array3) : M unit :=
  fun h =>
    match nth_error h a with
    | Some (ODataArray d) => (Ok tt, list_set h a (ODataArray (f d)))
    | _ => (Raise SystemError, h)
    end.

(** The body of [compute_3d_area], statement by statement. *)
Definition compute_3d_area_st (lat lon depth : addr) : M addr :=
  vlat <~ load_seq lat ;;
  vlon <~ load_seq lon ;;
  a2 <~ lift (area_2d_da vlat vlon) ;;
  vdepth <~ load_seq depth ;;
  expanded <~ lift (expand_dims "depth" vdepth a2) ;;
  a3 <~ lift (transpose expanded ["lat"; "lon"; "depth"]%string) ;;
  levels <~ lift (get_data vdepth) ;;
  area_3d_da <~ alloc (ODataArray
                  (assign_coords a3 "depth" levels
                     [("units", "m"); ("description", "Depth levels")]%string)) ;;
  _ <~ modify area_3d_da (fun a => set_name a "3D_area") ;;
  _ <~ modify area_3d_da
         (fun a => attrs_update a
                     [("description", "3D area of grid cells over depth");
                      ("units", "m^2")]%string) ;;
  ret area_3d_da.

(** The labelled array a call leaves at the address it returns. *)
Definition returned (r : result addr * heap) : result (DataArray array3) :=
  match r with
  | (Ok p, h) =>
      match nth_error h p with
      | Some (ODataArray a) => Ok a
      | _ => Raise SystemError
      end
  | (Raise e, _) => Raise e
  end.

(** A call on three sequences: the arguments are the only objects of the
    heap. *)
Definition compute_3d_area (lat lon depth : pyseq) : result (DataArray array3) :=
  returned (compute_3d_area_st 0 1 2 [OSeq lat; OSeq lon; OSeq depth]).

(** ** What the specification reads off the arguments and the result *)

(** The argument supports [s - 0.25]: NumPy and xarray arrays do. *)
Definition has_arith (s : pyseq) : bool :=
  match s with
  | PyList _ => false
  | _ => true
  end.

(** The argument has a [.data] attribute. *)
Definition has_data (s : pyseq) : bool :=
  match s with
  | PyList _ => false
  | _ => true
  end.

(** Every argument that is a labelled array runs along the dimension it is
    passed for: [lat] along "lat", [lon] along "lon", [depth] along
    "depth". *)
Definition dims_named (lat lon depth : pyseq) : bool :=
  named "lat" lat && named "lon" lon && named "depth" depth.

(** The values of the result. *)
Definition values3 (a : DataArray array3) : array3 := data (da_values a).

(** The extents of a nested list are those of [sh]. *)
Definition has_shape3 (a : array3) (sh : list nat) : Prop :=
  match sh with
  | [n0; n1; n2] =>
      length a = n0
      /\ Forall (fun row => length row = n1
                            /\ Forall (fun cell => length cell = n2) row) a
  | _ => False
  end.

(** An entry of [attrs] and the [attrs] of a coordinate. *)
Definition attr {D : Type} (a : DataArray D) (k : string) : option string :=
  dict_get (da_attrs a) k.
Definition coord_attr {D : Type} (a : DataArray D) (c k : string) : option string :=
  match dict_get (da_coords a) c with
  | Some co => dict_get (coord_attrs co) k
  | None => None
  end.

(** [out[:, :, d]] and [out[:, j, :]] *)
Definition isel_depth (a : array3) (d : nat) : array2 :=
  map (fun row => map (fun cell => nth d cell (of_int 0)) row) a.
Definition isel_lon (a : array3) (j : nat) : array2 :=
  map (fun row => nth j row []) a.

End Model.

Arguments pyseq F : clear implicits.
Arguments Coord F : clear implicits.
Arguments DataArray F D : clear implicits.
Arguments pyobj F : clear implicits.
Arguments heap F : clear implicits.

(** ** The arithmetic of real numbers *)

#[global] Instance RealOps : FloatOps R := {|
  of_int := IZR;
  quarter := 0.25%R;
  np_pi := PI;
  fadd := Rplus;
  fsub := Rminus;
  fmul := Rmult;
  fdiv := Rdiv;
  np_sin := sin
|}.

(** The sum of a list of real numbers, in order. *)
Definition sum_R (l : list R) : R := fold_left Rplus l 0%R.

(** The input contract of the specification for latitudes: cell centres
    0.5 degrees apart, each above the one before, all within [-90, 90]. *)
Definition uniform_half_degree (l : list R) : Prop :=
  forall i, S i < length l -> nth (S i) l 0%R = (nth i l 0 + 0.5)%R.

Definition in_range (l : list R) : Prop :=
  Forall (fun x => (-90 <= x <= 90)%R) l.

(** A small grid that reaches the north pole, used to exercise the
    statements below: two latitudes, three longitudes given as a plain list,
    two depth levels given as a labelled array. *)
Definition ex_lat : pyseq R := NdArray [89.5; 90]%R.
Definition ex_lon : pyseq R := PyList [0; 0.5; 1]%R.
Definition ex_depth : pyseq R :=
  XrArray [0; 10]%R "depth" [("units", "m")]%string.

(** A heap that holds, besides the three arguments, an object the call has
    no business with. *)
Definition ex_heap : heap R :=
  [OSeq (PyList [1]%R); OSeq ex_lat; OSeq ex_lon; OSeq ex_depth].

(** The edges, as the specification words them: [lat - 0.25] with
    [lat[last] + 0.25] appended. *)
Definition spec_edges (l : list R) : list R :=
  map (fun x => (x - 0.25)%R) l ++ [(last l 0 + 0.25)%R].

(** Latitudes in ascending order, ties allowed. *)
Definition ascending (l : list R) : Prop :=
  forall i, S i < length l -> (nth i l 0 <= nth (S i) l 0)%R.

(** The sum of all cells of the result at depth index [k]: the area the
    grid adds up to at one level. *)
Definition grid_total (a : array3) (k : nat) : R :=
  sum_R (map sum_R (isel_depth a k)).

(** Two further grids: one whose latitudes descend, and one whose edges run
    from pole to pole, with 720 columns. *)
Definition ex_lat_descending : pyseq R := NdArray [10; 0]%R.
Definition ex_lat_globe : pyseq R := NdArray [-89.75; 0; 89.75]%R.
Definition ex_lon_globe : pyseq R := PyList (repeat 0%R 720).

(** * Properties *)

Unset Implicit Arguments.

(** ** Lists *)

Section ListFacts.

Context {A B : Type}.

Lemma nth_map_in (f : A -> B) (l : list A) (i : nat) (d : A) (d' : B) :
  i < length l -> nth i (map f l) d' = f (nth i l d).
Proof.
  revert i; induction l as [|x l IH]; intros [|i] Hi; simpl in *; try lia; auto.
  apply IH; lia.
Qed.

Lemma nth_tl (l : list A) (i : nat) (d : A) : nth i (tl l) d = nth (S i) l d.
Proof. destruct l; simpl; auto. destruct i; auto. Qed.

Lemma length_removelast (l : list A) : length (removelast l) = length l - 1.
Proof.
  induction l as [|x [|y l] IH]; simpl in *; auto. rewrite IH. lia.
Qed.

Lemma nth_removelast (l : list A) (i : nat) (d : A) :
  S i < length l -> nth i (removelast l) d = nth i l d.
Proof.
  revert i; induction l as [|x [|y l] IH]; intros i Hi; simpl in *; try lia.
  destruct i; auto. apply IH. simpl. lia.
Qed.

Lemma rev_head_last (l : list A) (d : A) :
  l <> [] -> exists r, rev l = last l d :: r.
Proof.
  intros Hl. destruct (exists_last Hl) as [l' [x ->]].
  rewrite rev_unit, last_last. eauto.
Qed.

Lemma nth_repeat_in (x d : A) (n i : nat) : i < n -> nth i (repeat x n) d = x.
Proof.
  revert i; induction n; intros [|i] Hi; simpl; try lia; auto. apply IHn; lia.
Qed.

Lemma nth_seq_in (n i d : nat) : i < n -> nth i (seq 0 n) d = i.
Proof. intros Hi. rewrite seq_nth; lia. Qed.

Lemma map_const_seq (x : A) (n : nat) : map (fun _ => x) (seq 0 n) = repeat x n.
Proof. rewrite map_const. now rewrite length_seq. Qed.

Lemma list_set_app_end (l : list A) (x y : A) :
  list_set (l ++ [x]) (length l) y = l ++ [y].
Proof. induction l as [|z l IH]; simpl; auto. now rewrite IH. Qed.

Lemma nth_error_app_end (l : list A) (x : A) :
  nth_error (l ++ [x]) (length l) = Some x.
Proof. induction l as [|z l IH]; simpl; auto. Qed.

End ListFacts.

Lemma map_nth_seq {A B : Type} (f : A -> B) (l : list A) (d : A) :
  map (fun i => f (nth i l d)) (seq 0 (length l)) = map f l.
Proof.
  apply nth_ext with (d := f d) (d' := f d).
  - now rewrite !length_map, length_seq.
  - intros i Hi. rewrite length_map, length_seq in Hi.
    rewrite (nth_map_in _ _ _ 0 (f d)) by (rewrite length_seq; lia).
    rewrite nth_seq_in by lia. now rewrite (nth_map_in _ _ _ d (f d)).
Qed.

(** ** Properties that hold in every arithmetic *)

Section Generic.

Context {F : Type} {ops : FloatOps F}.

Lemma get3_build3 (n0 n1 n2 : nat) (f : nat -> nat -> nat -> F) (i j k : nat) :
  i < n0 -> j < n1 -> k < n2 -> get3 (build3 n0 n1 n2 f) i j k = f i j k.
Proof.
  intros Hi Hj Hk. unfold get3, build3.
  rewrite (nth_map_in _ _ _ 0 []) by (rewrite length_seq; lia).
  rewrite (nth_map_in _ _ _ 0 []) by (rewrite length_seq; lia).
  rewrite (nth_map_in _ _ _ 0 (of_int 0)) by (rewrite length_seq; lia).
  now rewrite !nth_seq_in.
Qed.

Lemma build3_shape (n0 n1 n2 : nat) (f : nat -> nat -> nat -> F) :
  has_shape3 (build3 n0 n1 n2 f) [n0; n1; n2].
Proof.
  unfold has_shape3, build3. split.
  - now rewrite length_map, length_seq.
  - apply Forall_forall. intros row Hrow.
    apply in_map_iff in Hrow as [i [<- _]]. split.
    + now rewrite length_map, length_seq.
    + apply Forall_forall. intros cell Hcell.
      apply in_map_iff in Hcell as [j [<- _]].
      now rewrite length_map, length_seq.
Qed.

(** The edges, as the source computes them. *)
Lemma lat_edges_ok (lat : pyseq F) :
  has_arith lat = true -> 0 < len lat ->
  lat_edges lat
  = Ok (map (fun x => fsub x quarter) (elems lat)
        ++ [fadd (last (elems lat) (of_int 0)) quarter]).
Proof.
  intros Ha Hn. unfold lat_edges, item_last, np_append.
  assert (Hne : elems lat <> []).
  { unfold len in Hn. destruct (elems lat); simpl in Hn; [lia | discriminate]. }
  destruct (rev_head_last _ (of_int 0) Hne) as [r Hr].
  destruct lat as [xs | xs | xs m]; simpl in *; try discriminate;
    now rewrite Hr.
Qed.

Lemma lat_edges_inv (lat : pyseq F) (edges : list F) :
  lat_edges lat = Ok edges -> has_arith lat = true /\ 0 < len lat.
Proof.
  unfold lat_edges, item_last, len.
  destruct lat as [xs | xs | xs m]; simpl; try discriminate;
    (destruct xs as [|x xs]; simpl; [discriminate | intros _; split; [reflexivity | lia]]).
Qed.

Lemma lat_edges_length (lat : pyseq F) (edges : list F) :
  lat_edges lat = Ok edges -> length edges = len lat + 1.
Proof.
  intros He. destruct (lat_edges_inv _ _ He) as [Ha Hn].
  rewrite (lat_edges_ok _ Ha Hn) in He. injection He as <-.
  now rewrite length_app, length_map.
Qed.

Lemma area_rows_length (edges : list F) :
  length (area_rows edges) = length edges - 1.
Proof.
  unfold area_rows, scalar_mul_arr, arr_sub, np_sin_arr, lat_north_rad,
    lat_south_rad, arr_mul_scalar, lat_north, lat_south, slice_from_1,
    slice_to_last.
  rewrite !length_map, length_combine, !length_map, length_removelast.
  destruct edges; simpl; lia.
Qed.

(** One row of the area, as the source computes it. *)
Lemma area_rows_nth (edges : list F) (i : nat) :
  S i < length edges ->
  nth i (area_rows edges) (of_int 0)
  = fmul (fmul (of_int (R_earth ^ 2)) delta_lambda)
      (fsub (np_sin (fmul (nth (S i) edges (of_int 0)) deg_to_rad))
            (np_sin (fmul (nth i edges (of_int 0)) deg_to_rad))).
Proof.
  intros Hi. unfold area_rows, scalar_mul_arr, arr_sub.
  assert (Hn : length (np_sin_arr (lat_north_rad edges)) = length edges - 1).
  { unfold np_sin_arr, lat_north_rad, arr_mul_scalar, lat_north, slice_from_1.
    rewrite !length_map. destruct edges; simpl; lia. }
  assert (Hs : length (np_sin_arr (lat_south_rad edges)) = length edges - 1).
  { unfold np_sin_arr, lat_south_rad, arr_mul_scalar, lat_south, slice_to_last.
    now rewrite !length_map, length_removelast. }
  rewrite (nth_map_in _ _ _ (of_int 0)) by (rewrite length_map, length_combine; lia).
  rewrite (nth_map_in _ _ _ (of_int 0, of_int 0)) by (rewrite length_combine; lia).
  rewrite combine_nth by lia. simpl.
  unfold np_sin_arr, lat_north_rad, lat_south_rad, arr_mul_scalar, lat_north,
    lat_south, slice_from_1, slice_to_last in *.
  rewrite !length_map in Hn, Hs.
  rewrite (nth_map_in _ _ _ (of_int 0)) by (rewrite length_map; lia).
  rewrite (nth_map_in _ _ _ (of_int 0)) by lia.
  rewrite (nth_map_in _ _ _ (of_int 0)) by (rewrite length_map; lia).
  rewrite (nth_map_in _ _ _ (of_int 0)) by lia.
  rewrite nth_tl, nth_removelast by lia. reflexivity.
Qed.

Lemma dims_named_inv (lat lon depth : pyseq F) :
  dims_named lat lon depth = true ->
  named "lat" lat = true /\ named "lon" lon = true
  /\ named "depth" depth = true.
Proof.
  unfold dims_named. intros H.
  apply andb_prop in H as [H Hdepth]. apply andb_prop in H as [Hlat Hlon].
  auto.
Qed.

Lemma dim_of_named (d : string) (s : pyseq F) :
  named d s = true -> dim_of d s = d.
Proof.
  destruct s as [xs|xs|xs d' m]; simpl; auto.
  intros H. now apply String.eqb_eq.
Qed.

(** The result in full, once the edges and [depth.data] are available and
    the labelled arrays among the arguments run along their dimensions. *)
Lemma compute_3d_area_unfold (lat lon depth : pyseq F) (edges levels : list F) :
  lat_edges lat = Ok edges ->
  get_data depth = Ok levels ->
  dims_named lat lon depth = true ->
  compute_3d_area lat lon depth
  = Ok {| da_name := Some "3D_area"%string;
          da_dims := ["lat"; "lon"; "depth"]%string;
          da_values :=
            {| shape := [length (area_rows edges); len lon; len depth];
               data := build3 (length (area_rows edges)) (len lon) (len depth)
                         (fun i j k =>
                            get3 (repeat (map (fun x => repeat x (len lon))
                                              (area_rows edges)) (len depth))
                                 k i j) |};
          da_coords :=
            [("lat", as_coord "lat" lat); ("lon", as_coord "lon" lon);
             ("depth", {| coord_dim := "depth"; coord_values := levels;
                          coord_attrs := [("units", "m");
                                          ("description", "Depth levels")] |})]%string;
          da_attrs := [("units", "m^2");
                       ("description", "3D area of grid cells over depth")]%string |}.
Proof.
  intros He Hd Hdims.
  destruct (dims_named_inv _ _ _ Hdims) as [Hlat [Hlon Hdepth]].
  unfold compute_3d_area, compute_3d_area_st, bindM, load_seq, lift, returned.
  cbn [nth_error].
  unfold area_2d_da, area_2d, expand_dims.
  rewrite He. cbn [bind]. rewrite Hlat, Hlon, Hdepth, Hd. reflexivity.
Qed.

(** The function returns when the latitudes support arithmetic and are not
    empty, the depths have a [.data] attribute, and the labelled arrays
    among the arguments run along their dimensions. *)
Lemma compute_3d_area_returns (lat lon depth : pyseq F) :
  has_arith lat = true -> 0 < len lat -> has_data depth = true ->
  dims_named lat lon depth = true ->
  exists out, compute_3d_area lat lon depth = Ok out.
Proof.
  intros Ha Hn Hd Hdims.
  assert (Hl : exists levels, get_data depth = Ok levels)
    by (destruct depth; simpl in *; try discriminate; eauto).
  destruct Hl as [levels Hl].
  rewrite (compute_3d_area_unfold lat lon depth _ _ (lat_edges_ok _ Ha Hn) Hl
             Hdims).
  eauto.
Qed.

Lemma compute_3d_area_inv (lat lon depth : pyseq F) (out : DataArray F array3) :
  compute_3d_area lat lon depth = Ok out ->
  exists edges levels,
    lat_edges lat = Ok edges /\ get_data depth = Ok levels
    /\ dims_named lat lon depth = true.
Proof.
  unfold compute_3d_area, compute_3d_area_st, bindM, load_seq, lift, returned,
    dims_named.
  cbn [nth_error].
  unfold area_2d_da, area_2d, expand_dims.
  destruct (lat_edges lat) as [edges|e]; cbn [bind]; [|discriminate].
  destruct (named "lat" lat && named "lon" lon); [|discriminate].
  destruct (named "depth" depth); [|discriminate].
  destruct (get_data depth) as [levels|e]; [|discriminate].
  eauto.
Qed.

(** A cell of the result is the area of its row. *)
Lemma compute_3d_area_cell (lat lon depth : pyseq F) (out : DataArray F array3)
    (edges : list F) (i j k : nat) :
  lat_edges lat = Ok edges ->
  compute_3d_area lat lon depth = Ok out ->
  i < len lat -> j < len lon -> k < len depth ->
  get3 (values3 out) i j k = nth i (area_rows edges) (of_int 0).
Proof.
  intros He Hc Hi Hj Hk.
  destruct (compute_3d_area_inv _ _ _ _ Hc) as [edges' [levels [He' [Hd Hdims]]]].
  rewrite He in He'. injection He' as <-.
  rewrite (compute_3d_area_unfold lat lon depth _ _ He Hd Hdims) in Hc. injection Hc as <-.
  pose proof (lat_edges_length _ _ He) as Hlen.
  pose proof (area_rows_length edges) as Hrows.
  unfold values3; simpl.
  rewrite get3_build3 by lia.
  unfold get3.
  rewrite (nth_repeat_in _ [] _ _ Hk).
  rewrite (nth_map_in _ _ _ (of_int 0)) by lia.
  now rewrite nth_repeat_in.
Qed.

Lemma build3_ext (n0 n1 n2 : nat) (f g : nat -> nat -> nat -> F) :
  (forall i j k, i < n0 -> j < n1 -> k < n2 -> f i j k = g i j k) ->
  build3 n0 n1 n2 f = build3 n0 n1 n2 g.
Proof.
  intros Hfg. unfold build3.
  apply map_ext_in; intros i Hi. apply map_ext_in; intros j Hj.
  apply map_ext_in; intros k Hk.
  apply in_seq in Hi, Hj, Hk. apply Hfg; lia.
Qed.

(** The values of the result: row [i] holds the area of row [i] in every
    column and at every level. *)
Lemma values3_rows (lat lon depth : pyseq F) (out : DataArray F array3)
    (edges : list F) :
  lat_edges lat = Ok edges ->
  compute_3d_area lat lon depth = Ok out ->
  values3 out
  = build3 (len lat) (len lon) (len depth)
      (fun i _ _ => nth i (area_rows edges) (of_int 0)).
Proof.
  intros He Hc.
  destruct (compute_3d_area_inv _ _ _ _ Hc) as [edges' [levels [He' [Hd Hdims]]]].
  rewrite He in He'. injection He' as <-.
  pose proof (lat_edges_length _ _ He) as Hlen.
  pose proof (area_rows_length edges) as Hrows.
  assert (Hn : length (area_rows edges) = len lat) by lia.
  rewrite (compute_3d_area_unfold lat lon depth _ _ He Hd Hdims) in Hc.
  injection Hc as <-. unfold values3; simpl. rewrite Hn.
  apply build3_ext. intros i j k Hi Hj Hk. unfold get3.
  rewrite (nth_repeat_in _ [] _ _ Hk).
  rewrite (nth_map_in _ _ _ (of_int 0)) by lia.
  now rewrite nth_repeat_in.
Qed.

(** The axes and the shape of whatever the call returns. *)
Lemma result_shape (lat lon depth : pyseq F) (out : DataArray F array3) :
  compute_3d_area lat lon depth = Ok out ->
  da_dims out = ["lat"; "lon"; "depth"]%string
  /\ da_shape out = [len lat; len lon; len depth]
  /\ has_shape3 (values3 out) [len lat; len lon; len depth].
Proof.
  intros Hout.
  destruct (compute_3d_area_inv _ _ _ _ Hout) as [edges [levels [He [Hl Hdims]]]].
  rewrite (values3_rows lat lon depth out _ He Hout).
  pose proof (lat_edges_length _ _ He) as Hlen.
  pose proof (area_rows_length edges) as Hrows.
  rewrite (compute_3d_area_unfold lat lon depth _ _ He Hl Hdims) in Hout.
  injection Hout as <-. unfold da_shape; simpl.
  split; [reflexivity|]. split; [f_equal; lia|]. apply build3_shape.
Qed.

Lemma isel_depth_build3 (n0 n1 n2 : nat) (g : nat -> F) (d : nat) :
  d < n2 ->
  isel_depth (build3 n0 n1 n2 (fun i _ _ => g i)) d
  = map (fun i => repeat (g i) n1) (seq 0 n0).
Proof.
  intros Hd. unfold isel_depth, build3. rewrite map_map.
  apply map_ext; intros i. rewrite map_map.
  rewrite <- map_const_seq. apply map_ext; intros j.
  rewrite map_const_seq. now apply nth_repeat_in.
Qed.

Lemma isel_lon_build3 (n0 n1 n2 : nat) (g : nat -> F) (j : nat) :
  j < n1 ->
  isel_lon (build3 n0 n1 n2 (fun i _ _ => g i)) j
  = map (fun i => repeat (g i) n2) (seq 0 n0).
Proof.
  intros Hj. unfold isel_lon, build3. rewrite map_map.
  apply map_ext; intros i.
  rewrite (nth_map_in _ _ _ 0) by (rewrite length_seq; lia).
  apply map_const_seq.
Qed.

(** The two-dimensional field, once the edges are available. *)
Lemma area_2d_da_ok (lat lon : pyseq F) (edges : list F) :
  lat_edges lat = Ok edges ->
  named "lat" lat = true -> named "lon" lon = true ->
  area_2d_da lat lon
  = Ok {| da_name := Some "cell_area"%string;
          da_dims := ["lat"; "lon"]%string;
          da_values := np_tile_columns (area_rows edges) (len lon);
          da_coords := [("lat", as_coord "lat" lat);
                        ("lon", as_coord "lon" lon)]%string;
          da_attrs := [("units", "m^2");
                       ("description",
                        "Area of each 1x1 degree grid cell")]%string |}.
Proof.
  intros He Hlat Hlon. unfold area_2d_da, area_2d.
  rewrite He. cbn [bind]. now rewrite Hlat, Hlon.
Qed.

(** A [depth] without [.data] is only noticed at the end. *)
Lemma compute_3d_area_no_data (lat lon depth : pyseq F) :
  has_arith lat = true -> 0 < len lat ->
  named "lat" lat = true -> named "lon" lon = true ->
  has_data depth = false ->
  compute_3d_area lat lon depth = Raise AttributeError.
Proof.
  intros Ha Hn Hlat Hlon Hd.
  pose proof (area_2d_da_ok lat lon _ (lat_edges_ok lat Ha Hn) Hlat Hlon) as H2.
  unfold compute_3d_area, compute_3d_area_st, bindM, load_seq, lift, returned.
  cbn [nth_error]. rewrite H2.
  destruct depth as [xs|xs|xs d m]; simpl in Hd; try discriminate.
  reflexivity.
Qed.

(** *** The heap-level call *)

(** A call in any heap allocates one object, the result, and leaves what it
    computes on the values of its arguments. *)
Lemma compute_3d_area_st_run (h : heap F) (lat lon depth : addr)
    (vlat vlon vdepth : pyseq F) :
  nth_error h lat = Some (OSeq vlat) ->
  nth_error h lon = Some (OSeq vlon) ->
  nth_error h depth = Some (OSeq vdepth) ->
  compute_3d_area_st lat lon depth h
  = match compute_3d_area vlat vlon vdepth with
    | Ok out => (Ok (length h), h ++ [ODataArray out])
    | Raise e => (Raise e, h)
    end.
Proof.
  intros Hlat Hlon Hdepth.
  unfold compute_3d_area, compute_3d_area_st, bindM, load_seq, lift, alloc,
    modify, ret, returned; simpl.
  rewrite Hlat, Hlon, Hdepth.
  destruct (area_2d_da vlat vlon) as [a2|e]; [|reflexivity].
  destruct (expand_dims "depth" vdepth a2) as [expanded|e]; [|reflexivity].
  destruct (transpose expanded _) as [a3|e]; [|reflexivity].
  destruct (get_data vdepth) as [levels|e]; [|reflexivity].
  rewrite nth_error_app_end, list_set_app_end.
  rewrite nth_error_app_end, list_set_app_end.
  reflexivity.
Qed.

(** *** The claims that hold in every arithmetic *)

(** The statements below are about calls that return.  A call returns when
    [lat] supports arithmetic and is not empty, [depth] has a [.data]
    attribute, and every argument that is a labelled array runs along the
    dimension it is passed for ([dims_named]: [lat] along "lat", [lon] along
    "lon", [depth] along "depth"); otherwise xarray refuses the argument.
    These four conditions are the hypotheses that the statements share. *)

(** C1: for non-empty latitudes, and arguments that xarray accepts (labelled
    arrays along their own dimensions), the sequence [lat - 0.25] with
    [lat[last] + 0.25] appended has [len(lat) + 1] values, the call returns,
    and the value of the result at latitude index [i], for every longitude
    and depth index, is
    [R^2 * (0.25*pi/180) * (sin(edges[i+1]*pi/180) - sin(edges[i]*pi/180))]
    with [R = 6371000], the operations being applied in this order. *)
Theorem C1_cell_value_formula (lat lon depth : pyseq F) :
  has_arith lat = true -> 0 < len lat -> has_data depth = true ->
  dims_named lat lon depth = true ->
  let edges := map (fun x => fsub x quarter) (elems lat)
               ++ [fadd (last (elems lat) (of_int 0)) quarter] in
  length edges = len lat + 1
  /\ exists out,
       compute_3d_area lat lon depth = Ok out
       /\ forall i j k, i < len lat -> j < len lon -> k < len depth ->
            get3 (values3 out) i j k
            = fmul (fmul (of_int (6371000 ^ 2))
                         (fmul quarter (fdiv np_pi (of_int 180))))
                   (fsub (np_sin (fmul (nth (S i) edges (of_int 0))
                                       (fdiv np_pi (of_int 180))))
                         (np_sin (fmul (nth i edges (of_int 0))
                                       (fdiv np_pi (of_int 180))))).
Proof.
  intros Ha Hn Hd Hdims edges.
  pose proof (lat_edges_ok lat Ha Hn) as He. fold edges in He.
  pose proof (lat_edges_length _ _ He) as Hlen.
  split; [exact Hlen|].
  destruct (compute_3d_area_returns lat lon depth Ha Hn Hd Hdims) as [out Hout].
  exists out. split; [exact Hout|].
  intros i j k Hi Hj Hk.
  rewrite (compute_3d_area_cell lat lon depth out edges i j k He Hout Hi Hj Hk).
  apply area_rows_nth. lia.
Qed.

(** C2: for non-empty latitudes, and arguments that xarray accepts (labelled
    arrays along their own dimensions), the call returns an array with the
    axes (lat, lon, depth), of shape [(len(lat), len(lon), len(depth))], and its
    values are laid out with these extents. *)
Theorem C2_shape_and_axes (lat lon depth : pyseq F) :
  has_arith lat = true -> 0 < len lat -> has_data depth = true ->
  dims_named lat lon depth = true ->
  exists out,
    compute_3d_area lat lon depth = Ok out
    /\ da_dims out = ["lat"; "lon"; "depth"]%string
    /\ da_shape out = [len lat; len lon; len depth]
    /\ has_shape3 (values3 out) [len lat; len lon; len depth].
Proof.
  intros Ha Hn Hd Hdims.
  destruct (compute_3d_area_returns lat lon depth Ha Hn Hd Hdims) as [out Hout].
  exists out. split; [exact Hout|].
  now apply result_shape.
Qed.

(** C4: when the call returns (non-empty latitudes, labelled arrays along
    their own dimensions), the slices of the result at any two depth indices
    are equal, each being the two-dimensional field; and the values at a depth index are the
    same whatever depth sequence the function is called with. *)
Theorem C4_depth_invariance (lat lon depth : pyseq F) :
  has_arith lat = true -> 0 < len lat -> has_data depth = true ->
  dims_named lat lon depth = true ->
  exists out a2,
    compute_3d_area lat lon depth = Ok out
    /\ area_2d lat lon = Ok a2
    /\ (forall d, d < len depth -> isel_depth (values3 out) d = data a2)
    /\ (forall d1 d2, d1 < len depth -> d2 < len depth ->
          isel_depth (values3 out) d1 = isel_depth (values3 out) d2)
    /\ (forall depth' out' d d',
          compute_3d_area lat lon depth' = Ok out' ->
          d < len depth -> d' < len depth' ->
          isel_depth (values3 out) d = isel_depth (values3 out') d').
Proof.
  intros Ha Hn Hd Hdims.
  pose proof (lat_edges_ok lat Ha Hn) as He.
  destruct (compute_3d_area_returns lat lon depth Ha Hn Hd Hdims) as [out Hout].
  set (edges := map (fun x => fsub x quarter) (elems lat)
                ++ [fadd (last (elems lat) (of_int 0)) quarter]) in *.
  exists out, (np_tile_columns (area_rows edges) (len lon)).
  assert (Hslice : forall depth' out' d',
             compute_3d_area lat lon depth' = Ok out' -> d' < len depth' ->
             isel_depth (values3 out') d'
             = map (fun i => repeat (nth i (area_rows edges) (of_int 0)) (len lon))
                   (seq 0 (len lat))).
  { intros depth' out' d' Hout' Hd'.
    rewrite (values3_rows lat lon depth' out' edges He Hout').
    now apply isel_depth_build3. }
  split; [exact Hout|]. split; [unfold area_2d; now rewrite He|].
  split; [|split].
  - intros d Hlt. rewrite (Hslice depth out d Hout Hlt). simpl.
    pose proof (lat_edges_length _ _ He) as Hlen.
    pose proof (area_rows_length edges) as Hrows.
    replace (len lat) with (length (area_rows edges)) by lia.
    apply (map_nth_seq (fun x => repeat x (len lon))).
  - intros d1 d2 H1 H2.
    now rewrite (Hslice depth out d1 Hout H1), (Hslice depth out d2 Hout H2).
  - intros depth' out' d d' Hout' H1 H2.
    now rewrite (Hslice depth out d Hout H1), (Hslice depth' out' d' Hout' H2).
Qed.

(** C5: when the call returns (non-empty latitudes, labelled arrays along
    their own dimensions), the slices of the result at any two longitude
    indices are equal, and two longitude sequences of one length give the same values. *)
Theorem C5_longitude_invariance (lat lon depth : pyseq F) :
  has_arith lat = true -> 0 < len lat -> has_data depth = true ->
  dims_named lat lon depth = true ->
  exists out,
    compute_3d_area lat lon depth = Ok out
    /\ (forall j1 j2, j1 < len lon -> j2 < len lon ->
          isel_lon (values3 out) j1 = isel_lon (values3 out) j2)
    /\ (forall lon' out',
          len lon' = len lon ->
          compute_3d_area lat lon' depth = Ok out' ->
          values3 out' = values3 out).
Proof.
  intros Ha Hn Hd Hdims.
  pose proof (lat_edges_ok lat Ha Hn) as He.
  destruct (compute_3d_area_returns lat lon depth Ha Hn Hd Hdims) as [out Hout].
  exists out. split; [exact Hout|]. split.
  - intros j1 j2 H1 H2.
    rewrite (values3_rows lat lon depth out _ He Hout).
    now rewrite !isel_lon_build3.
  - intros lon' out' Hlen Hout'.
    rewrite (values3_rows lat lon depth out _ He Hout).
    rewrite (values3_rows lat lon' depth out' _ He Hout').
    now rewrite Hlen.
Qed.

(** C8: a call in any heap returns what the values of its three arguments
    determine, whatever else the heap holds; a second call with the same
    arguments returns an equal array; and neither call changes an object
    that existed before it, the arguments included. *)
Theorem C8_deterministic_no_side_effects (h : heap F) (lat lon depth : addr)
    (vlat vlon vdepth : pyseq F) :
  nth_error h lat = Some (OSeq vlat) ->
  nth_error h lon = Some (OSeq vlon) ->
  nth_error h depth = Some (OSeq vdepth) ->
  let first := compute_3d_area_st lat lon depth h in
  let second := compute_3d_area_st lat lon depth (snd first) in
  returned first = compute_3d_area vlat vlon vdepth
  /\ returned second = returned first
  /\ (forall a, a < length h -> nth_error (snd first) a = nth_error h a)
  /\ (forall a, a < length (snd first) ->
        nth_error (snd second) a = nth_error (snd first) a).
Proof.
  intros Hlat Hlon Hdepth first second.
  assert (Hrun : forall h0,
             nth_error h0 lat = Some (OSeq vlat) ->
             nth_error h0 lon = Some (OSeq vlon) ->
             nth_error h0 depth = Some (OSeq vdepth) ->
             let r := compute_3d_area_st lat lon depth h0 in
             returned r = compute_3d_area vlat vlon vdepth
             /\ (forall a, a < length h0 -> nth_error (snd r) a = nth_error h0 a)).
  { intros h0 H1 H2 H3 r. subst r.
    rewrite (compute_3d_area_st_run h0 lat lon depth vlat vlon vdepth H1 H2 H3).
    destruct (compute_3d_area vlat vlon vdepth) as [out|e]; simpl.
    - rewrite nth_error_app_end. split; [reflexivity|].
      intros a Hlt. now apply nth_error_app1.
    - split; reflexivity || auto. }
  destruct (Hrun h Hlat Hlon Hdepth) as [Hr1 Hf1]. fold first in Hr1, Hf1.
  assert (Hin : forall a o, nth_error h a = Some o ->
                            nth_error (snd first) a = Some o).
  { intros a o Ho. rewrite Hf1; [exact Ho|].
    apply nth_error_Some. congruence. }
  destruct (Hrun (snd first) (Hin _ _ Hlat) (Hin _ _ Hlon) (Hin _ _ Hdepth))
    as [Hr2 Hf2]. fold second in Hr2, Hf2.
  repeat split; auto. congruence.
Qed.

(** C9, as the code has it: whenever the call returns (non-empty array
    latitudes, a depth with [.data], labelled arrays along their own
    dimensions), the
    two-dimensional field carries the unit "m^2" and the description
    "Area of each 1x1 degree grid cell" (with the letter x); the array
    returned is named "3D_area", carries the unit "m^2" and the description
    "3D area of grid cells over depth", and its depth coordinate carries the
    unit "m". *)
Theorem C9_metadata (lat lon depth : pyseq F) :
  has_arith lat = true -> 0 < len lat -> has_data depth = true ->
  dims_named lat lon depth = true ->
  (exists a2,
      area_2d_da lat lon = Ok a2
      /\ attr a2 "units" = Some "m^2"%string
      /\ attr a2 "description"
         = Some "Area of each 1x1 degree grid cell"%string)
  /\ (exists out,
      compute_3d_area lat lon depth = Ok out
      /\ da_name out = Some "3D_area"%string
      /\ attr out "units" = Some "m^2"%string
      /\ attr out "description"
         = Some "3D area of grid cells over depth"%string
      /\ coord_attr out "depth" "units" = Some "m"%string).
Proof.
  intros Ha Hn Hd Hdims.
  pose proof (lat_edges_ok lat Ha Hn) as He. split.
  - destruct (dims_named_inv _ _ _ Hdims) as [Hlat [Hlon _]].
    rewrite (area_2d_da_ok lat lon _ He Hlat Hlon). eexists.
    split; [reflexivity|]. split; reflexivity.
  - destruct (compute_3d_area_returns lat lon depth Ha Hn Hd Hdims) as [out Hout].
    exists out. split; [exact Hout|].
    destruct (compute_3d_area_inv _ _ _ _ Hout) as [edges [levels [He' [Hl _]]]].
    rewrite (compute_3d_area_unfold lat lon depth _ _ He' Hl Hdims) in Hout.
    injection Hout as <-. repeat split.
Qed.

(** C10, as the code has it: when the steps before [depth.data] succeed
    (the latitudes support arithmetic and are not empty, and [lat] and
    [lon], if labelled arrays, run along "lat" and "lon"), and [depth] has
    no [.data] attribute (a plain Python list), the call raises
    [AttributeError] instead of returning. *)
Theorem C10_attribute_error_on_list_depth (lat lon depth : pyseq F) :
  has_arith lat = true -> 0 < len lat -> has_data depth = false ->
  dims_named lat lon depth = true ->
  compute_3d_area lat lon depth = Raise AttributeError.
Proof.
  intros Ha Hn Hd Hdims.
  destruct (dims_named_inv _ _ _ Hdims) as [Hlat [Hlon _]].
  now apply compute_3d_area_no_data.
Qed.

End Generic.

(** ** Properties in the arithmetic of real numbers *)

Section Real.

Open Scope R_scope.

Lemma R_earth_squared : IZR (R_earth ^ 2) = 6371000 ^ 2.
Proof. unfold R_earth. now rewrite pow_IZR. Qed.

Lemma delta_lambda_pos : 0 < 0.25 * (PI / 180).
Proof. pose proof PI_RGT_0. lra. Qed.

Lemma row_factor_pos : 0 < 6371000 ^ 2 * (0.25 * (PI / 180)).
Proof. pose proof delta_lambda_pos. nra. Qed.

(** A cell half a degree high centred within [-90, 90] has its northern
    sine above its southern one. *)
Lemma sin_diff_nonneg (x : R) :
  -90 <= x <= 90 ->
  0 <= sin ((x + 0.25) * (PI / 180)) - sin ((x - 0.25) * (PI / 180)).
Proof.
  intros [Hlo Hhi]. pose proof PI_RGT_0 as Hpi. rewrite form4.
  replace (((x + 0.25) * (PI / 180) + (x - 0.25) * (PI / 180)) / 2)
    with (x * (PI / 180)) by lra.
  replace (((x + 0.25) * (PI / 180) - (x - 0.25) * (PI / 180)) / 2)
    with (0.25 * (PI / 180)) by lra.
  assert (Hc : 0 <= cos (x * (PI / 180))) by (apply cos_ge_0; nra).
  assert (Hs : 0 < sin (0.25 * (PI / 180))) by (apply sin_gt_0; lra).
  nra.
Qed.

Lemma sin_diff_le_2 (a b : R) : sin a - sin b <= 2.
Proof. pose proof (SIN_bound a). pose proof (SIN_bound b). lra. Qed.

Lemma spec_edges_south (l : list R) (i : nat) :
  (i < length l)%nat -> nth i (spec_edges l) 0 = nth i l 0 - 0.25.
Proof.
  intros Hi. unfold spec_edges.
  rewrite app_nth1 by (now rewrite length_map).
  exact (nth_map_in (fun x => x - 0.25) l i 0 0 Hi).
Qed.

Lemma spec_edges_top (l : list R) :
  nth (length l) (spec_edges l) 0 = last l 0 + 0.25.
Proof.
  unfold spec_edges. rewrite app_nth2 by (rewrite length_map; lia).
  rewrite length_map, Nat.sub_diag. reflexivity.
Qed.

Lemma last_is_nth (l : list R) (i : nat) :
  S i = length l -> last l 0 = nth i l 0.
Proof.
  revert i; induction l as [|x [|y l] IH]; intros i Hi; simpl in *; try lia.
  - now replace i with 0%nat by lia.
  - destruct i as [|i]; [lia|]. apply IH. lia.
Qed.

Lemma spec_edges_north (l : list R) (i : nat) :
  uniform_half_degree l -> (i < length l)%nat ->
  nth (S i) (spec_edges l) 0 = nth i l 0 + 0.25.
Proof.
  intros Hu Hi. destruct (Nat.eq_dec (S i) (length l)) as [Heq|Hne].
  - rewrite Heq, spec_edges_top. now rewrite (last_is_nth l i Heq).
  - rewrite spec_edges_south by lia. rewrite Hu by lia. lra.
Qed.

Lemma sum_R_snoc (l : list R) (x : R) : sum_R (l ++ [x]) = sum_R l + x.
Proof. unfold sum_R. now rewrite fold_left_app. Qed.

(** A sum of consecutive differences keeps its two ends. *)
Lemma sum_R_telescope (c : R) (g : nat -> R) (n : nat) :
  sum_R (map (fun i => c * (g (S i) - g i)) (seq 0 n)) = c * (g n - g 0%nat).
Proof.
  induction n as [|n IH].
  - unfold sum_R; simpl. lra.
  - rewrite seq_S, map_app. cbn [map Nat.add]. rewrite sum_R_snoc, IH. lra.
Qed.

(** A cell of the result, in real arithmetic. *)
Lemma cell_value_R (lat lon depth : pyseq R) (out : DataArray R array3)
    (i j k : nat) :
  compute_3d_area lat lon depth = Ok out ->
  (i < len lat)%nat -> (j < len lon)%nat -> (k < len depth)%nat ->
  get3 (values3 out) i j k
  = 6371000 ^ 2 * (0.25 * (PI / 180))
    * (sin (nth (S i) (spec_edges (elems lat)) 0 * (PI / 180))
       - sin (nth i (spec_edges (elems lat)) 0 * (PI / 180))).
Proof.
  intros Hout Hi Hj Hk.
  destruct (compute_3d_area_inv _ _ _ _ Hout) as [edges [levels [He _]]].
  destruct (lat_edges_inv _ _ He) as [Ha Hn].
  pose proof (lat_edges_ok lat Ha Hn) as He'.
  rewrite (compute_3d_area_cell lat lon depth out _ i j k He' Hout Hi Hj Hk).
  rewrite area_rows_nth
    by (rewrite length_app, length_map; unfold len in Hi; simpl; lia).
  unfold delta_lambda, deg_to_rad.
  cbn [fmul fsub fadd fdiv np_sin np_pi of_int quarter RealOps].
  rewrite R_earth_squared. reflexivity.
Qed.

(** *** The claims that need real arithmetic *)

(** C3: for latitudes that meet the input contract (not empty, centres
    0.5 degrees apart) and lie in [-90, 90], and arguments that xarray
    accepts (labelled arrays along their own dimensions), the call returns
    and every
    value of the result is at least 0 and at most [2 * R^2 * delta_lambda],
    hence finite.  Arithmetic is exact here; rounding is not modelled. *)
Theorem C3_values_nonnegative_and_bounded (lat lon depth : pyseq R) :
  has_arith lat = true -> (0 < len lat)%nat -> has_data depth = true ->
  dims_named lat lon depth = true ->
  uniform_half_degree (elems lat) -> in_range (elems lat) ->
  exists out,
    compute_3d_area lat lon depth = Ok out
    /\ forall i j k,
         (i < len lat)%nat -> (j < len lon)%nat -> (k < len depth)%nat ->
         0 <= get3 (values3 out) i j k
           <= 2 * (6371000 ^ 2 * (0.25 * (PI / 180))).
Proof.
  intros Ha Hn Hd Hdims Hu Hr.
  destruct (compute_3d_area_returns lat lon depth Ha Hn Hd Hdims) as [out Hout].
  exists out. split; [exact Hout|]. intros i j k Hi Hj Hk.
  rewrite (cell_value_R lat lon depth out i j k Hout Hi Hj Hk).
  rewrite (spec_edges_north _ i Hu Hi), (spec_edges_south _ i Hi).
  assert (Hx : -90 <= nth i (elems lat) 0 <= 90).
  { unfold in_range in Hr. rewrite Forall_forall in Hr.
    apply Hr. now apply nth_In. }
  pose proof (sin_diff_nonneg _ Hx) as Hlo.
  pose proof (sin_diff_le_2 ((nth i (elems lat) 0 + 0.25) * (PI / 180))
                            ((nth i (elems lat) 0 - 0.25) * (PI / 180))) as Hhi.
  pose proof row_factor_pos as Hc.
  split; nra.
Qed.

(** C6: the areas of all latitude rows, in any one column and at any one
    level, sum to
    [R^2 * (0.25*pi/180) * (sin((lat[last]+0.25)*pi/180) - sin((lat[0]-0.25)*pi/180))]:
    the sines of the inner edges cancel.  Of the latitudes this needs only
    that they are not empty, so it holds in particular for ascending
    latitudes 0.5 degrees apart; the arguments must be such that the call
    returns (labelled arrays along their own dimensions). *)
Theorem C6_rows_sum_to_band (lat lon depth : pyseq R) :
  has_arith lat = true -> (0 < len lat)%nat -> has_data depth = true ->
  dims_named lat lon depth = true ->
  exists out,
    compute_3d_area lat lon depth = Ok out
    /\ forall j k, (j < len lon)%nat -> (k < len depth)%nat ->
         sum_R (map (fun i => get3 (values3 out) i j k) (seq 0 (len lat)))
         = 6371000 ^ 2 * (0.25 * (PI / 180))
           * (sin ((last (elems lat) 0 + 0.25) * (PI / 180))
              - sin ((nth 0 (elems lat) 0 - 0.25) * (PI / 180))).
Proof.
  intros Ha Hn Hd Hdims.
  destruct (compute_3d_area_returns lat lon depth Ha Hn Hd Hdims) as [out Hout].
  exists out. split; [exact Hout|]. intros j k Hj Hk.
  set (g := fun n => sin (nth n (spec_edges (elems lat)) 0 * (PI / 180))).
  transitivity
    (sum_R (map (fun i => 6371000 ^ 2 * (0.25 * (PI / 180)) * (g (S i) - g i))
                (seq 0 (len lat)))).
  - f_equal. apply map_ext_in. intros i Hi. apply in_seq in Hi. unfold g.
    apply (cell_value_R lat lon depth out i j k Hout); lia.
  - rewrite sum_R_telescope. unfold g, len.
    rewrite spec_edges_top, spec_edges_south by exact Hn. reflexivity.
Qed.

(** C7: for [lat = [0.0]], [lon = [0.0]], [depth = [0.0]], given as arrays
    (labelled ones along their own dimensions), the call returns
    an array of shape (1, 1, 1) whose one value is
    [R^2 * (0.25*pi/180) * (sin(0.25*pi/180) - sin(-0.25*pi/180))], a
    positive number. *)
Theorem C7_single_cell (lat lon depth : pyseq R) :
  has_arith lat = true -> has_data depth = true ->
  dims_named lat lon depth = true ->
  elems lat = [0] -> elems lon = [0] -> elems depth = [0] ->
  exists out v,
    compute_3d_area lat lon depth = Ok out
    /\ da_shape out = [1; 1; 1]%nat
    /\ values3 out = [[[v]]]
    /\ v = 6371000 ^ 2 * (0.25 * (PI / 180))
           * (sin (0.25 * (PI / 180)) - sin (-0.25 * (PI / 180)))
    /\ 0 < v.
Proof.
  intros Ha Hd Hdims Hlat Hlon Hdepth.
  assert (Hn : (0 < len lat)%nat) by (unfold len; rewrite Hlat; simpl; lia).
  destruct (compute_3d_area_returns lat lon depth Ha Hn Hd Hdims) as [out Hout].
  destruct (result_shape lat lon depth out Hout) as [_ [Hshape _]].
  pose proof (values3_rows lat lon depth out _ (lat_edges_ok lat Ha Hn) Hout)
    as Hval.
  pose proof (cell_value_R lat lon depth out 0 0 0 Hout) as Hcell.
  unfold len in *. rewrite Hlat, Hlon, Hdepth in *.
  cbn [length build3 seq map] in Hval, Hshape.
  remember (nth 0 (area_rows _) (of_int 0)) as v eqn:Ev in Hval. clear Ev.
  rewrite Hval in Hcell. unfold get3 in Hcell.
  cbn [nth spec_edges map app last length] in Hcell.
  specialize (Hcell ltac:(lia) ltac:(lia) ltac:(lia)).
  replace (0 + 0.25) with 0.25 in Hcell by lra.
  replace (0 - 0.25) with (-0.25) in Hcell by lra.
  exists out, v. split; [exact Hout|]. split; [exact Hshape|].
  split; [exact Hval|]. split; [exact Hcell|].
  rewrite Hcell.
  replace (-0.25 * (PI / 180)) with (- (0.25 * (PI / 180))) by lra.
  rewrite sin_neg.
  pose proof PI_RGT_0 as Hpi.
  assert (Hs : 0 < sin (0.25 * (PI / 180))) by (apply sin_gt_0; lra).
  pose proof row_factor_pos as Hc. nra.
Qed.

(** The spacing assumption of C3 cannot be dropped: ascending latitudes in
    range, but 0.1 degrees apart at the south pole, give a negative area. *)
Lemma negative_area_without_half_degree_spacing :
  exists out,
    compute_3d_area (NdArray [-90; -89.9]) (NdArray [0]) (NdArray [0]) = Ok out
    /\ get3 (values3 out) 0 0 0 < 0.
Proof.
  destruct (compute_3d_area_returns (NdArray [-90; -89.9]) (NdArray [0])
              (NdArray [0]) eq_refl ltac:(cbn; lia) eq_refl eq_refl)
    as [out Hout].
  exists out. split; [exact Hout|].
  rewrite (cell_value_R _ _ _ out 0 0 0 Hout) by (cbn; lia).
  cbn [elems spec_edges map app nth].
  rewrite form4.
  replace (((-89.9 - 0.25) * (PI / 180) + (-90 - 0.25) * (PI / 180)) / 2)
    with (- (90.2 * (PI / 180))) by lra.
  replace (((-89.9 - 0.25) * (PI / 180) - (-90 - 0.25) * (PI / 180)) / 2)
    with (0.05 * (PI / 180)) by lra.
  rewrite cos_neg. pose proof PI_RGT_0 as Hpi.
  assert (Hc : cos (90.2 * (PI / 180)) < 0) by (apply cos_lt_0; lra).
  assert (Hs : 0 < sin (0.05 * (PI / 180))) by (apply sin_gt_0; lra).
  pose proof row_factor_pos as Hf.
  assert (Hp : 2 * cos (90.2 * (PI / 180)) * sin (0.05 * (PI / 180)) < 0) by nra.
  nra.
Qed.

(** *** Where the statements of the specification differ from the code *)

(** C9, as the specification words it, fails: the description of the
    two-dimensional field is spelled with the letter x in the code, not with
    the multiplication sign. *)
Lemma C9_description_not_verbatim :
  exists a2,
    area_2d_da ex_lat ex_lon = Ok a2
    /\ attr a2 "description"
       <> Some "Area of each 1×1 degree grid cell"%string.
Proof.
  eexists. split.
  - exact (area_2d_da_ok ex_lat ex_lon _
             (lat_edges_ok ex_lat eq_refl ltac:(cbn; lia)) eq_refl eq_refl).
  - cbn. discriminate.
Qed.

(** C10, as the specification words it, fails twice: with an empty latitude
    array the call raises [IndexError] before it reaches [depth.data], also
    when [depth] is a plain list; and a bare NumPy array has a [.data]
    attribute, so the call returns. *)
Lemma C10_not_every_call_raises_attribute_error :
  compute_3d_area (NdArray []) ex_lon (PyList [0; 10]) = Raise IndexError
  /\ exists out,
       compute_3d_area ex_lat ex_lon (NdArray [0; 10]) = Ok out.
Proof.
  split; [reflexivity|].
  apply compute_3d_area_returns;
    [reflexivity | cbn; lia | reflexivity | reflexivity].
Qed.

(** A labelled array along another dimension than the one it is passed for
    is refused: [lat] and [lon] when the two-dimensional field is built,
    [depth] when the field is expanded. *)
Lemma foreign_dimension_is_refused :
  compute_3d_area (XrArray [89.5; 90] "latitude" []) ex_lon ex_depth
  = Raise ValueError
  /\ compute_3d_area ex_lat (XrArray [0; 0.5; 1] "x" []) ex_depth
     = Raise ValueError
  /\ compute_3d_area ex_lat ex_lon (XrArray [0; 10] "z" []) = Raise KeyError.
Proof. repeat split. Qed.

(** *** The statements at the example grid *)

Lemma C1_witness :
  has_arith ex_lat = true /\ (0 < len ex_lat)%nat /\ has_data ex_depth = true
  /\ dims_named ex_lat ex_lon ex_depth = true
  /\ exists out,
       compute_3d_area ex_lat ex_lon ex_depth = Ok out
       /\ get3 (values3 out) 1 2 0
          = 6371000 ^ 2 * (0.25 * (PI / 180))
            * (sin ((90 + 0.25) * (PI / 180)) - sin ((90 - 0.25) * (PI / 180))).
Proof.
  split; [reflexivity|]. split; [cbn; lia|]. split; [reflexivity|].
  split; [reflexivity|].
  destruct (C1_cell_value_formula ex_lat ex_lon ex_depth)
    as [_ [out [Hout Hcell]]]; [reflexivity | cbn; lia | reflexivity | reflexivity |].
  exists out. split; [exact Hout|].
  rewrite (Hcell 1 2 0)%nat by (cbn; lia).
  cbn [ex_lat elems map app nth last fmul fsub fadd fdiv np_sin np_pi of_int
       quarter RealOps].
  rewrite <- R_earth_squared. reflexivity.
Defined.

Lemma C2_witness :
  has_arith ex_lat = true /\ (0 < len ex_lat)%nat /\ has_data ex_depth = true
  /\ dims_named ex_lat ex_lon ex_depth = true
  /\ exists out,
       compute_3d_area ex_lat ex_lon ex_depth = Ok out
       /\ da_dims out = ["lat"; "lon"; "depth"]%string
       /\ da_shape out = [2; 3; 2]%nat
       /\ has_shape3 (values3 out) [2; 3; 2]%nat.
Proof.
  split; [reflexivity|]. split; [cbn; lia|]. split; [reflexivity|].
  split; [reflexivity|].
  apply (C2_shape_and_axes ex_lat ex_lon ex_depth);
    [reflexivity | cbn; lia | reflexivity | reflexivity].
Defined.

Lemma ex_lat_uniform : uniform_half_degree (elems ex_lat).
Proof.
  intros [|i] Hi; cbn in *; [lra | lia].
Defined.

Lemma ex_lat_in_range : in_range (elems ex_lat).
Proof.
  repeat constructor; cbn; lra.
Defined.

Lemma C3_witness :
  uniform_half_degree (elems ex_lat) /\ in_range (elems ex_lat)
  /\ exists out,
       compute_3d_area ex_lat ex_lon ex_depth = Ok out
       /\ forall i j k, (i < 2)%nat -> (j < 3)%nat -> (k < 2)%nat ->
            0 <= get3 (values3 out) i j k
              <= 2 * (6371000 ^ 2 * (0.25 * (PI / 180))).
Proof.
  split; [exact ex_lat_uniform|]. split; [exact ex_lat_in_range|].
  apply (C3_values_nonnegative_and_bounded ex_lat ex_lon ex_depth);
    [reflexivity | cbn; lia | reflexivity | reflexivity
    | exact ex_lat_uniform
    | exact ex_lat_in_range].
Defined.

Lemma C4_witness :
  exists out,
    compute_3d_area ex_lat ex_lon ex_depth = Ok out
    /\ isel_depth (values3 out) 0 = isel_depth (values3 out) 1.
Proof.
  destruct (C4_depth_invariance ex_lat ex_lon ex_depth)
    as [out [a2 [Hout [_ [_ [Hsame _]]]]]];
    [reflexivity | cbn; lia | reflexivity | reflexivity |].
  exists out. split; [exact Hout|]. apply Hsame; cbn; lia.
Defined.

Lemma C5_witness :
  exists out,
    compute_3d_area ex_lat ex_lon ex_depth = Ok out
    /\ isel_lon (values3 out) 0 = isel_lon (values3 out) 2.
Proof.
  destruct (C5_longitude_invariance ex_lat ex_lon ex_depth)
    as [out [Hout [Hsame _]]]; [reflexivity | cbn; lia | reflexivity | reflexivity |].
  exists out. split; [exact Hout|]. apply Hsame; cbn; lia.
Defined.

Lemma C6_witness :
  exists out,
    compute_3d_area ex_lat ex_lon ex_depth = Ok out
    /\ sum_R [get3 (values3 out) 0 0 0; get3 (values3 out) 1 0 0]
       = 6371000 ^ 2 * (0.25 * (PI / 180))
         * (sin ((90 + 0.25) * (PI / 180)) - sin ((89.5 - 0.25) * (PI / 180))).
Proof.
  destruct (C6_rows_sum_to_band ex_lat ex_lon ex_depth) as [out [Hout Hsum]];
    [reflexivity | cbn; lia | reflexivity | reflexivity |].
  exists out. split; [exact Hout|].
  apply (Hsum 0 0)%nat; cbn; lia.
Defined.

Lemma C7_witness :
  exists out v,
    compute_3d_area (NdArray [0]) (NdArray [0]) (NdArray [0]) = Ok out
    /\ da_shape out = [1; 1; 1]%nat
    /\ values3 out = [[[v]]]
    /\ v = 6371000 ^ 2 * (0.25 * (PI / 180))
           * (sin (0.25 * (PI / 180)) - sin (-0.25 * (PI / 180)))
    /\ 0 < v.
Proof.
  apply (C7_single_cell (NdArray [0]) (NdArray [0]) (NdArray [0]));
    reflexivity.
Defined.

Lemma C8_witness :
  returned (compute_3d_area_st 1 2 3 ex_heap)%nat
  = compute_3d_area ex_lat ex_lon ex_depth
  /\ returned (compute_3d_area_st 1 2 3
                (snd (compute_3d_area_st 1 2 3 ex_heap)))%nat
     = returned (compute_3d_area_st 1 2 3 ex_heap)%nat
  /\ nth_error (snd (compute_3d_area_st 1 2 3 ex_heap))%nat 1%nat
     = Some (OSeq ex_lat).
Proof.
  destruct (C8_deterministic_no_side_effects ex_heap 1%nat 2%nat 3%nat
              ex_lat ex_lon ex_depth eq_refl eq_refl eq_refl)
    as [Hval [Hsame [Hframe _]]].
  split; [exact Hval|]. split; [exact Hsame|].
  rewrite Hframe; [reflexivity | cbn; lia].
Defined.

Lemma C9_witness :
  (exists a2,
      area_2d_da ex_lat ex_lon = Ok a2
      /\ attr a2 "units" = Some "m^2"%string
      /\ attr a2 "description"
         = Some "Area of each 1x1 degree grid cell"%string)
  /\ (exists out,
      compute_3d_area ex_lat ex_lon ex_depth = Ok out
      /\ da_name out = Some "3D_area"%string
      /\ attr out "units" = Some "m^2"%string
      /\ attr out "description"
         = Some "3D area of grid cells over depth"%string
      /\ coord_attr out "depth" "units" = Some "m"%string).
Proof.
  apply (C9_metadata ex_lat ex_lon ex_depth);
    [reflexivity | cbn; lia | reflexivity | reflexivity].
Defined.

Lemma C10_witness :
  compute_3d_area ex_lat ex_lon (PyList [0; 10]) = Raise AttributeError.
Proof.
  apply (C10_attribute_error_on_list_depth ex_lat ex_lon (PyList [0; 10]));
    [reflexivity | cbn; lia | reflexivity | reflexivity].
Defined.

End Real.

(** * Further properties of [compute_3d_area] *)

(** ** In every arithmetic *)

Section Outcomes.

Context {F : Type} {ops : FloatOps F}.



(** X2: when the call returns (non-empty array latitudes, a depth with
    [.data], labelled arrays along their own dimensions), the result is
    labelled by its arguments.  It has a coordinate on
    each of its three dimensions, holding the values of [lat], [lon] and
    [depth] unchanged, so each has as many labels as the array has entries
    along that dimension; the depth coordinate is described as
    "Depth levels". *)
Theorem X2_coordinates_pass_through (lat lon depth : pyseq F) :
  has_arith lat = true -> 0 < len lat -> has_data depth = true ->
  dims_named lat lon depth = true ->
  exists out clat clon cdepth,
    compute_3d_area lat lon depth = Ok out
    /\ dict_get (da_coords out) "lat" = Some clat
    /\ dict_get (da_coords out) "lon" = Some clon
    /\ dict_get (da_coords out) "depth" = Some cdepth
    /\ coord_values clat = elems lat
    /\ coord_values clon = elems lon
    /\ coord_values cdepth = elems depth
    /\ map coord_dim [clat; clon; cdepth] = da_dims out
    /\ map (fun c => length (coord_values c)) [clat; clon; cdepth]
       = da_shape out
    /\ dict_get (coord_attrs cdepth) "description" = Some "Depth levels"%string.
Proof.
  intros Ha Hn Hd Hdims.
  pose proof (lat_edges_ok lat Ha Hn) as He.
  assert (Hl : get_data depth = Ok (elems depth))
    by (destruct depth; simpl in *; try discriminate; reflexivity).
  pose proof (lat_edges_length _ _ He) as Hlen.
  pose proof (area_rows_length
                (map (fun x => fsub x quarter) (elems lat)
                 ++ [fadd (last (elems lat) (of_int 0)) quarter])) as Hrows.
  destruct (dims_named_inv _ _ _ Hdims) as [Hlat [Hlon _]].
  rewrite (compute_3d_area_unfold lat lon depth _ _ He Hl Hdims).
  do 4 eexists. split; [reflexivity|].
  split; [reflexivity|]. split; [reflexivity|]. split; [reflexivity|].
  split; [reflexivity|]. split; [reflexivity|]. split; [reflexivity|].
  split; [|split; [|reflexivity]].
  - cbn [map as_coord coord_dim da_dims].
    now rewrite (dim_of_named _ _ Hlat), (dim_of_named _ _ Hlon).
  - unfold da_shape; simpl. unfold len in *. f_equal. lia.
Qed.

(** X3: a call that raises leaves the heap exactly as it found it; a call
    that returns has added one object to the heap, the array it returns,
    at an address that was free before, so the result is never one of the
    arguments. *)
Theorem X3_result_is_a_new_object (h : heap F) (lat lon depth : addr)
    (vlat vlon vdepth : pyseq F) :
  nth_error h lat = Some (OSeq vlat) ->
  nth_error h lon = Some (OSeq vlon) ->
  nth_error h depth = Some (OSeq vdepth) ->
  match compute_3d_area_st lat lon depth h with
  | (Ok p, h') =>
      nth_error h p = None
      /\ p <> lat /\ p <> lon /\ p <> depth
      /\ exists out, h' = h ++ [ODataArray out]
                     /\ compute_3d_area vlat vlon vdepth = Ok out
  | (Raise e, h') =>
      h' = h /\ compute_3d_area vlat vlon vdepth = Raise e
  end.
Proof.
  intros Hlat Hlon Hdepth.
  rewrite (compute_3d_area_st_run h lat lon depth vlat vlon vdepth
             Hlat Hlon Hdepth).
  destruct (compute_3d_area vlat vlon vdepth) as [out|e]; [|now split].
  assert (Hfree : nth_error h (length h) = None)
    by (apply nth_error_None; lia).
  split; [exact Hfree|].
  split; [intros Heq; rewrite Heq in Hfree; congruence|].
  split; [intros Heq; rewrite Heq in Hfree; congruence|].
  split; [intros Heq; rewrite Heq in Hfree; congruence|].
  exists out. split; reflexivity.
Qed.

End Outcomes.

(** ** In real arithmetic *)

Section Geometry.

Open Scope R_scope.

Lemma angle_in_quadrant (x : R) :
  -90 <= x <= 90 -> - (PI / 2) <= x * (PI / 180) <= PI / 2.
Proof. intros [Hlo Hhi]. pose proof PI_RGT_0. split; nra. Qed.

Lemma spec_edges_last_north (l : list R) (i : nat) :
  S i = length l -> nth (S i) (spec_edges l) 0 = nth i l 0 + 0.25.
Proof.
  intros Heq. rewrite Heq, spec_edges_top. now rewrite (last_is_nth l i Heq).
Qed.

Lemma nth_in_Forall (P : R -> Prop) (l : list R) (i : nat) :
  Forall P l -> (i < length l)%nat -> P (nth i l 0).
Proof.
  intros Hall Hi. rewrite Forall_forall in Hall. apply Hall. now apply nth_In.
Qed.

(** With centres 0.5 degrees apart, a cell is the cosine of its latitude
    times a constant. *)
Lemma cell_cosine_form (lat lon depth : pyseq R) (out : DataArray R array3)
    (i j k : nat) :
  compute_3d_area lat lon depth = Ok out ->
  uniform_half_degree (elems lat) ->
  (i < len lat)%nat -> (j < len lon)%nat -> (k < len depth)%nat ->
  get3 (values3 out) i j k
  = 6371000 ^ 2 * (0.25 * (PI / 180))
    * (2 * sin (0.25 * (PI / 180)) * cos (nth i (elems lat) 0 * (PI / 180))).
Proof.
  intros Hout Hu Hi Hj Hk.
  rewrite (cell_value_R lat lon depth out i j k Hout Hi Hj Hk).
  rewrite (spec_edges_north _ i Hu Hi), (spec_edges_south _ i Hi).
  rewrite form4.
  replace (((nth i (elems lat) 0 + 0.25) * (PI / 180)
            + (nth i (elems lat) 0 - 0.25) * (PI / 180)) / 2)
    with (nth i (elems lat) 0 * (PI / 180)) by lra.
  replace (((nth i (elems lat) 0 + 0.25) * (PI / 180)
            - (nth i (elems lat) 0 - 0.25) * (PI / 180)) / 2)
    with (0.25 * (PI / 180)) by lra.
  ring.
Qed.

Lemma cos_abs_angle (x : R) : cos (x * (PI / 180)) = cos (Rabs x * (PI / 180)).
Proof.
  unfold Rabs. destruct (Rcase_abs x) as [Hneg|Hpos]; [|reflexivity].
  replace (- x * (PI / 180)) with (- (x * (PI / 180))) by lra.
  now rewrite cos_neg.
Qed.

Lemma sum_R_repeat (x : R) (n : nat) : sum_R (repeat x n) = INR n * x.
Proof.
  induction n as [|n IH].
  - unfold sum_R; simpl. lra.
  - cbn [repeat]. rewrite repeat_cons, sum_R_snoc, IH, S_INR. lra.
Qed.

(** X4: for latitudes in ascending order within [-89.75, 90], whatever
    their spacing, and arguments that xarray accepts (labelled arrays along
    their own dimensions), the call returns and no value of the result is
    negative. *)
Theorem X4_nonnegative_for_ascending (lat lon depth : pyseq R) :
  has_arith lat = true -> (0 < len lat)%nat -> has_data depth = true ->
  dims_named lat lon depth = true ->
  ascending (elems lat) ->
  Forall (fun x => -89.75 <= x <= 90) (elems lat) ->
  exists out,
    compute_3d_area lat lon depth = Ok out
    /\ forall i j k,
         (i < len lat)%nat -> (j < len lon)%nat -> (k < len depth)%nat ->
         0 <= get3 (values3 out) i j k.
Proof.
  intros Ha Hn Hd Hdims Hasc Hr.
  destruct (compute_3d_area_returns lat lon depth Ha Hn Hd Hdims) as [out Hout].
  exists out. split; [exact Hout|]. intros i j k Hi Hj Hk.
  rewrite (cell_value_R lat lon depth out i j k Hout Hi Hj Hk).
  pose proof row_factor_pos as Hc.
  pose proof (nth_in_Forall _ _ i Hr Hi) as Hxi. cbv beta in Hxi.
  rewrite (spec_edges_south _ i Hi).
  unfold len in Hi.
  destruct (Nat.eq_dec (S i) (length (elems lat))) as [Heq|Hne].
  - rewrite (spec_edges_last_north _ i Heq).
    assert (Hx : -90 <= nth i (elems lat) 0 <= 90) by lra.
    pose proof (sin_diff_nonneg _ Hx). nra.
  - assert (Hlt : (S i < length (elems lat))%nat) by lia.
    rewrite (spec_edges_south _ (S i) Hlt).
    pose proof (nth_in_Forall _ _ (S i) Hr Hlt) as Hxs. cbv beta in Hxs.
    pose proof (Hasc i Hlt) as Hle.
    assert (Hs : -90 <= nth i (elems lat) 0 - 0.25 <= 90) by lra.
    assert (Hnn : -90 <= nth (S i) (elems lat) 0 - 0.25 <= 90) by lra.
    destruct (angle_in_quadrant _ Hs) as [Hs1 Hs2].
    destruct (angle_in_quadrant _ Hnn) as [Hn1 Hn2].
    pose proof PI_RGT_0 as Hpi.
    assert (Hmono : sin ((nth i (elems lat) 0 - 0.25) * (PI / 180))
                    <= sin ((nth (S i) (elems lat) 0 - 0.25) * (PI / 180)))
      by (apply sin_incr_1; auto; nra).
    nra.
Qed.

(** X5: where a latitude is followed by a smaller one (both with their
    southern edges within [-90, 90]), the cells of that row are strictly
    negative: the function does not reject or reorder descending input.
    (As everywhere, labelled arrays among the arguments run along their own
    dimensions.) *)
Theorem X5_descending_pair_gives_negative_area (lat lon depth : pyseq R)
    (i : nat) :
  has_arith lat = true -> has_data depth = true ->
  dims_named lat lon depth = true ->
  (S i < len lat)%nat ->
  nth (S i) (elems lat) 0 < nth i (elems lat) 0 ->
  -89.75 <= nth (S i) (elems lat) 0 -> nth i (elems lat) 0 <= 90.25 ->
  exists out,
    compute_3d_area lat lon depth = Ok out
    /\ forall j k, (j < len lon)%nat -> (k < len depth)%nat ->
         get3 (values3 out) i j k < 0.
Proof.
  intros Ha Hd Hdims Hi Hdesc Hlo Hhi.
  assert (Hn : (0 < len lat)%nat) by lia.
  destruct (compute_3d_area_returns lat lon depth Ha Hn Hd Hdims) as [out Hout].
  exists out. split; [exact Hout|]. intros j k Hj Hk.
  rewrite (cell_value_R lat lon depth out i j k Hout) by (auto; lia).
  unfold len in Hi.
  rewrite (spec_edges_south _ i) by lia.
  rewrite (spec_edges_south _ (S i) Hi).
  assert (Hs : -90 <= nth i (elems lat) 0 - 0.25 <= 90) by lra.
  assert (Hnn : -90 <= nth (S i) (elems lat) 0 - 0.25 <= 90) by lra.
  destruct (angle_in_quadrant _ Hs) as [Hs1 Hs2].
  destruct (angle_in_quadrant _ Hnn) as [Hn1 Hn2].
  pose proof PI_RGT_0 as Hpi.
  assert (Hmono : sin ((nth (S i) (elems lat) 0 - 0.25) * (PI / 180))
                  < sin ((nth i (elems lat) 0 - 0.25) * (PI / 180)))
    by (apply sin_increasing_1; auto; nra).
  pose proof row_factor_pos as Hc. nra.
Qed.

(** X6: for centres 0.5 degrees apart (and arguments with which the call
    returns), every cell of row [i] equals
    [R^2 * (0.25*pi/180) * 2*sin(0.25*pi/180) * cos(lat[i]*pi/180)]: the
    area is the cosine of the latitude of the centre, times a constant. *)
Theorem X6_cosine_of_latitude (lat lon depth : pyseq R) :
  has_arith lat = true -> (0 < len lat)%nat -> has_data depth = true ->
  dims_named lat lon depth = true ->
  uniform_half_degree (elems lat) ->
  exists out,
    compute_3d_area lat lon depth = Ok out
    /\ forall i j k,
         (i < len lat)%nat -> (j < len lon)%nat -> (k < len depth)%nat ->
         get3 (values3 out) i j k
         = 6371000 ^ 2 * (0.25 * (PI / 180))
           * (2 * sin (0.25 * (PI / 180))
              * cos (nth i (elems lat) 0 * (PI / 180))).
Proof.
  intros Ha Hn Hd Hdims Hu.
  destruct (compute_3d_area_returns lat lon depth Ha Hn Hd Hdims) as [out Hout].
  exists out. split; [exact Hout|]. intros i j k Hi Hj Hk.
  now apply (cell_cosine_form lat lon depth).
Qed.

(** X7: for centres 0.5 degrees apart within [-90, 90] (and arguments with
    which the call returns), a row farther from
    the equator never has the larger cells; rows at the same distance north
    and south of the equator therefore have equal cells. *)
Theorem X7_cells_shrink_toward_the_poles (lat lon depth : pyseq R) :
  has_arith lat = true -> (0 < len lat)%nat -> has_data depth = true ->
  dims_named lat lon depth = true ->
  uniform_half_degree (elems lat) -> in_range (elems lat) ->
  exists out,
    compute_3d_area lat lon depth = Ok out
    /\ forall i i' j j' k k',
         (i < len lat)%nat -> (j < len lon)%nat -> (k < len depth)%nat ->
         (i' < len lat)%nat -> (j' < len lon)%nat -> (k' < len depth)%nat ->
         Rabs (nth i (elems lat) 0) <= Rabs (nth i' (elems lat) 0) ->
         get3 (values3 out) i' j' k' <= get3 (values3 out) i j k.
Proof.
  intros Ha Hn Hd Hdims Hu Hr.
  destruct (compute_3d_area_returns lat lon depth Ha Hn Hd Hdims) as [out Hout].
  exists out. split; [exact Hout|].
  intros i i' j j' k k' Hi Hj Hk Hi' Hj' Hk' Habs.
  rewrite (cell_cosine_form lat lon depth out i j k Hout Hu Hi Hj Hk).
  rewrite (cell_cosine_form lat lon depth out i' j' k' Hout Hu Hi' Hj' Hk').
  rewrite (cos_abs_angle (nth i (elems lat) 0)).
  rewrite (cos_abs_angle (nth i' (elems lat) 0)).
  pose proof (nth_in_Forall _ _ i' Hr Hi') as Hx'. cbv beta in Hx'.
  assert (Hb' : Rabs (nth i' (elems lat) 0) <= 90) by (apply Rabs_le; lra).
  pose proof (Rabs_pos (nth i (elems lat) 0)) as Hp.
  pose proof PI_RGT_0 as Hpi.
  assert (Hcos : cos (Rabs (nth i' (elems lat) 0) * (PI / 180))
                 <= cos (Rabs (nth i (elems lat) 0) * (PI / 180)))
    by (apply cos_decr_1; nra).
  assert (Hs : 0 < sin (0.25 * (PI / 180))) by (apply sin_gt_0; lra).
  pose proof row_factor_pos as Hc.
  apply Rmult_le_compat_l; [lra|]. apply Rmult_le_compat_l; [lra|]. exact Hcos.
Qed.

(** X8: for centres 0.5 degrees apart (and arguments with which the call
    returns), a row centred on a pole (latitude 90
    or -90) has cells of area exactly 0. *)
Theorem X8_pole_centred_cells_are_empty (lat lon depth : pyseq R) (i : nat) :
  has_arith lat = true -> has_data depth = true ->
  dims_named lat lon depth = true ->
  uniform_half_degree (elems lat) ->
  (i < len lat)%nat ->
  nth i (elems lat) 0 = 90 \/ nth i (elems lat) 0 = -90 ->
  exists out,
    compute_3d_area lat lon depth = Ok out
    /\ forall j k, (j < len lon)%nat -> (k < len depth)%nat ->
         get3 (values3 out) i j k = 0.
Proof.
  intros Ha Hd Hdims Hu Hi Hpole.
  assert (Hn : (0 < len lat)%nat) by lia.
  destruct (compute_3d_area_returns lat lon depth Ha Hn Hd Hdims) as [out Hout].
  exists out. split; [exact Hout|]. intros j k Hj Hk.
  rewrite (cell_cosine_form lat lon depth out i j k Hout Hu Hi Hj Hk).
  assert (Hz : cos (nth i (elems lat) 0 * (PI / 180)) = 0).
  { destruct Hpole as [-> | ->].
    - replace (90 * (PI / 180)) with (PI / 2) by lra. apply cos_PI2.
    - replace (-90 * (PI / 180)) with (- (PI / 2)) by lra.
      rewrite cos_neg. apply cos_PI2. }
  rewrite Hz. ring.
Qed.

(** X9: when the edges run from pole to pole (first latitude -89.75, last
    89.75) and the call returns, the cells of one level add up to
    [len(lon) * 2 * R^2 * (0.25*pi/180)].  With 720 columns this is
    [2*pi*R^2], half the surface [4*pi*R^2] of the sphere: each cell is
    given a width of 0.25 degrees of longitude. *)
Theorem X9_whole_grid_total (lat lon depth : pyseq R) :
  has_arith lat = true -> (0 < len lat)%nat -> has_data depth = true ->
  dims_named lat lon depth = true ->
  nth 0 (elems lat) 0 = -89.75 -> last (elems lat) 0 = 89.75 ->
  exists out,
    compute_3d_area lat lon depth = Ok out
    /\ forall k, (k < len depth)%nat ->
         grid_total (values3 out) k
         = INR (len lon) * (2 * (6371000 ^ 2 * (0.25 * (PI / 180))))
         /\ (len lon = 720%nat ->
             grid_total (values3 out) k = 2 * PI * 6371000 ^ 2).
Proof.
  intros Ha Hn Hd Hdims Hfirst Hlast.
  destruct (compute_3d_area_returns lat lon depth Ha Hn Hd Hdims) as [out Hout].
  exists out. split; [exact Hout|]. intros k Hk.
  pose proof (lat_edges_ok lat Ha Hn) as He.
  assert (Htotal : grid_total (values3 out) k
                   = INR (len lon) * (2 * (6371000 ^ 2 * (0.25 * (PI / 180))))).
  { rewrite (values3_rows lat lon depth out _ He Hout).
    unfold grid_total. rewrite isel_depth_build3 by exact Hk.
    rewrite map_map.
    change (map (fun x => fsub x quarter) (elems lat)
            ++ [fadd (last (elems lat) (of_int 0)) quarter])
      with (spec_edges (elems lat)).
    set (g := fun n => sin (nth n (spec_edges (elems lat)) 0 * (PI / 180))).
    transitivity
      (sum_R (map (fun i => INR (len lon)
                            * (6371000 ^ 2 * (0.25 * (PI / 180)))
                            * (g (S i) - g i))
                  (seq 0 (len lat)))).
    - f_equal. apply map_ext_in. intros i Hi. apply in_seq in Hi.
      rewrite sum_R_repeat.
      rewrite area_rows_nth
        by (unfold spec_edges; rewrite length_app, length_map;
            unfold len in Hi; simpl; lia).
      unfold delta_lambda, deg_to_rad, g.
      cbn [fmul fsub fadd fdiv np_sin np_pi of_int quarter RealOps].
      rewrite R_earth_squared. ring.
    - rewrite sum_R_telescope. unfold g, len.
      rewrite spec_edges_top, spec_edges_south by exact Hn.
      rewrite Hfirst, Hlast.
      replace ((89.75 + 0.25) * (PI / 180)) with (PI / 2) by lra.
      replace ((-89.75 - 0.25) * (PI / 180)) with (- (PI / 2)) by lra.
      rewrite sin_neg, sin_PI2. ring. }
  split; [exact Htotal|].
  intros H720. rewrite Htotal, H720, INR_IZR_INZ.
  change (Z.of_nat 720) with 720%Z. lra.
Qed.

End Geometry.

(** ** The further properties at the example grids *)

Section FurtherExamples.

Open Scope R_scope.

Lemma X2_witness :
  exists out clat clon cdepth,
    compute_3d_area ex_lat ex_lon ex_depth = Ok out
    /\ dict_get (da_coords out) "lat" = Some clat
    /\ dict_get (da_coords out) "lon" = Some clon
    /\ dict_get (da_coords out) "depth" = Some cdepth
    /\ coord_values clat = [89.5; 90]
    /\ coord_values clon = [0; 0.5; 1]
    /\ coord_values cdepth = [0; 10]
    /\ map coord_dim [clat; clon; cdepth] = da_dims out
    /\ map (fun c => length (coord_values c)) [clat; clon; cdepth]
       = da_shape out
    /\ dict_get (coord_attrs cdepth) "description" = Some "Depth levels"%string.
Proof.
  apply (X2_coordinates_pass_through ex_lat ex_lon ex_depth);
    [reflexivity | cbn; lia | reflexivity | reflexivity].
Defined.

Lemma X3_witness :
  match compute_3d_area_st 1%nat 2%nat 3%nat ex_heap with
  | (Ok p, h') =>
      nth_error ex_heap p = None
      /\ p <> 1%nat /\ p <> 2%nat /\ p <> 3%nat
      /\ exists out, h' = ex_heap ++ [ODataArray out]
                     /\ compute_3d_area ex_lat ex_lon ex_depth = Ok out
  | (Raise e, h') =>
      h' = ex_heap /\ compute_3d_area ex_lat ex_lon ex_depth = Raise e
  end.
Proof.
  apply (X3_result_is_a_new_object ex_heap 1%nat 2%nat 3%nat
           ex_lat ex_lon ex_depth); reflexivity.
Defined.

Lemma ex_lat_ascending : ascending (elems ex_lat).
Proof.
  intros [|i] Hi; cbn in *; [lra | lia].
Defined.

Lemma ex_lat_edges_in_range :
  Forall (fun x => -89.75 <= x <= 90) (elems ex_lat).
Proof.
  repeat constructor; cbn; lra.
Defined.

Lemma X4_witness :
  exists out,
    compute_3d_area ex_lat ex_lon ex_depth = Ok out
    /\ forall i j k, (i < 2)%nat -> (j < 3)%nat -> (k < 2)%nat ->
         0 <= get3 (values3 out) i j k.
Proof.
  apply (X4_nonnegative_for_ascending ex_lat ex_lon ex_depth);
    [reflexivity | cbn; lia | reflexivity | reflexivity
    | exact ex_lat_ascending
    | exact ex_lat_edges_in_range].
Defined.

Lemma X5_witness :
  exists out,
    compute_3d_area ex_lat_descending ex_lon ex_depth = Ok out
    /\ forall j k, (j < 3)%nat -> (k < 2)%nat ->
         get3 (values3 out) 0 j k < 0.
Proof.
  apply (X5_descending_pair_gives_negative_area ex_lat_descending ex_lon
           ex_depth 0);
    [reflexivity | reflexivity | reflexivity | cbn; lia | cbn; lra | cbn; lra
    | cbn; lra].
Defined.

Lemma X6_witness :
  exists out,
    compute_3d_area ex_lat ex_lon ex_depth = Ok out
    /\ forall i j k, (i < 2)%nat -> (j < 3)%nat -> (k < 2)%nat ->
         get3 (values3 out) i j k
         = 6371000 ^ 2 * (0.25 * (PI / 180))
           * (2 * sin (0.25 * (PI / 180))
              * cos (nth i [89.5; 90] 0 * (PI / 180))).
Proof.
  apply (X6_cosine_of_latitude ex_lat ex_lon ex_depth);
    [reflexivity | cbn; lia | reflexivity | reflexivity
    | exact ex_lat_uniform].
Defined.

Lemma X7_witness :
  exists out,
    compute_3d_area ex_lat ex_lon ex_depth = Ok out
    /\ get3 (values3 out) 1 0 0 <= get3 (values3 out) 0 2 1.
Proof.
  destruct (X7_cells_shrink_toward_the_poles ex_lat ex_lon ex_depth)
    as [out [Hout Hle]];
    [reflexivity | cbn; lia | reflexivity | reflexivity
    | exact ex_lat_uniform
    | exact ex_lat_in_range |].
  exists out. split; [exact Hout|].
  apply Hle; try (cbn; lia).
  cbn. rewrite !Rabs_pos_eq by lra. lra.
Defined.

Lemma X8_witness :
  exists out,
    compute_3d_area ex_lat ex_lon ex_depth = Ok out
    /\ forall j k, (j < 3)%nat -> (k < 2)%nat ->
         get3 (values3 out) 1 j k = 0.
Proof.
  apply (X8_pole_centred_cells_are_empty ex_lat ex_lon ex_depth 1);
    [reflexivity | reflexivity | reflexivity | exact ex_lat_uniform
    | cbn; lia | left; reflexivity].
Defined.

Lemma X9_witness :
  exists out,
    compute_3d_area ex_lat_globe ex_lon_globe ex_depth = Ok out
    /\ forall k, (k < 2)%nat ->
         grid_total (values3 out) k = 2 * PI * 6371000 ^ 2.
Proof.
  destruct (X9_whole_grid_total ex_lat_globe ex_lon_globe ex_depth)
    as [out [Hout Htotal]];
    [reflexivity | cbn; lia | reflexivity | reflexivity | reflexivity
    | reflexivity |].
  exists out. split; [exact Hout|].
  intros k Hk. apply (Htotal k Hk). reflexivity.
Defined.

End FurtherExamples.
